(** * z5py [dataset.py]: index resolution, compression metadata, creation

    A shallow embedding of [src/python/module/z5py/dataset.py].  Python
    integers are [Z]; tuples and lists are [list]; [None]-able values are
    [option]; a raised exception is the [Raise] constructor of [result].
    The file system touched by dataset creation is an explicit state that is
    threaded through a small state-and-exception monad. *)

From Stdlib Require Import ZArith Lia Bool.
From Stdlib Require Import Floats.SpecFloat.
From stdpp Require Import base option list strings gmap.

Local Open Scope Z_scope.

(** ** NumPy element types *)

(** The result of [np.dtype(dtype)]: the ten types of the dialect tables and
    some of the others NumPy knows. *)
Inductive np_dtype :=
| uint8 | uint16 | uint32 | uint64
| int8 | int16 | int32 | int64
| float32 | float64
| float16 | bool_ | complex64 | complex128.

Global Instance np_dtype_eq_dec : EqDecision np_dtype.
Proof. solve_decision. Defined.

(** ** Exceptions *)

(** The Python exception classes the module can surface. *)
Inductive exn_class :=
| TypeError | ValueError | RuntimeError | KeyError | IndexError
| OverflowError | OSError.

Global Instance exn_class_eq_dec : EqDecision exn_class.
Proof. solve_decision. Defined.

(** One constructor per raise site (or per failing primitive), carrying the
    values that are formatted into the message. *)
Inductive exn :=
| NontrivialSteps                       (* ValueError('Nontrivial steps are not supported') *)
| IndexOutOfRange (i size : Z)          (* ValueError('Index ({}) out of range (0-{})') *)
| AdvancedSelection                     (* TypeError(type_msg) *)
| SequenceTooLong                       (* TypeError("Argument sequence too long") *)
| OnlyOneEllipsis                       (* ValueError("Only one ellipsis may be used") *)
| UnpackEmpty                           (* ValueError: not enough values to unpack *)
| TupleIndexOutOfRange                  (* IndexError: tuple index out of range *)
| IntOfComplex                          (* TypeError raised by int(complex) *)
| IntOfNaN                              (* ValueError raised by int(nan) *)
| IntOfInfinity                         (* OverflowError raised by int(inf) *)
| NoLen                                 (* TypeError: object of type ... has no len() *)
| CannotCreateExisting                  (* RuntimeError("Cannot create existing dataset") *)
| CompressionNotSupported (zarr : bool) (c : string)
                                        (* RuntimeError("Compression %s is not supported in zarr|n5 format") *)
| InvalidDataType (zarr : bool) (d : np_dtype)
                                        (* ValueError("Invalid data type {} for zarr|N5 dataset") *)
| MissingKey (k : string)               (* KeyError(k) on a dict with string keys *)
| MissingDtype (d : np_dtype)           (* KeyError(d) on a dtype table *)
| NotSubscriptable                      (* TypeError: indexing None, a number, or a str/list by a str *)
| NotIterable                           (* TypeError: argument of type ... is not iterable *)
| OsFailure (what : string)             (* OSError raised by the operating system *)
| EngineFailure (what : string).        (* RuntimeError raised by the storage engine *)

Definition class_of (e : exn) : exn_class :=
  match e with
  | NontrivialSteps | IndexOutOfRange _ _ | OnlyOneEllipsis | UnpackEmpty
  | IntOfNaN | InvalidDataType _ _ => ValueError
  | AdvancedSelection | SequenceTooLong | IntOfComplex | NoLen
  | NotSubscriptable | NotIterable => TypeError
  | TupleIndexOutOfRange => IndexError
  | IntOfInfinity => OverflowError
  | CannotCreateExisting | CompressionNotSupported _ _
  | EngineFailure _ => RuntimeError
  | MissingKey _ | MissingDtype _ => KeyError
  | OsFailure _ => OSError
  end.

Inductive result (A : Type) :=
| Ok (a : A)
| Raise (e : exn).
Arguments Ok {A} a.
Arguments Raise {A} e.

Global Instance result_ret : MRet result := fun A a => Ok a.
Global Instance result_bind : MBind result := fun A B k r =>
  match r with
  | Ok a => k a
  | Raise e => Raise e
  end.

Definition is_ok {A} (r : result A) : bool :=
  match r with Ok _ => true | Raise _ => false end.

(** ** Index expressions *)

(** A [slice] object.  Bounds and step are integers or [None]. *)
Record slice := Slice { start : option Z; stop : option Z; step : option Z }.

(** Values for which [isinstance(_, numbers.Number)] holds. *)
Inductive number :=
| NInt (i : Z)
| NBool (b : bool)
| NFloat (f : spec_float)
| NComplex (re im : spec_float).

(** Objects that are neither numbers, slices nor [Ellipsis]. *)
Inductive other_obj :=
| ONone
| OStr (s : string)
| OList (l : list Z).

Inductive index_item :=
| INum (n : number)
| ISlice (s : slice)
| IEllipsis
| IOther (o : other_obj).

(** The argument of [__getitem__]: a tuple of items, or one bare object. *)
Inductive index :=
| IdxTuple (l : list index_item)
| IdxBare (i : index_item).

(** Python's [int(x)] on a number: floats are truncated toward zero. *)
Definition int_of_float (f : spec_float) : result Z :=
  match f with
  | S754_zero _ => Ok 0
  | S754_infinity _ => Raise IntOfInfinity
  | S754_nan => Raise IntOfNaN
  | S754_finite s m e =>
      let mag := if 0 <=? e then Z.pos m * 2 ^ e else Z.pos m / 2 ^ (- e) in
      Ok (if s then - mag else mag)
  end.

Definition py_int (n : number) : result Z :=
  match n with
  | NInt i => Ok i
  | NBool b => Ok (if b then 1 else 0)
  | NFloat f => int_of_float f
  | NComplex _ _ => Raise IntOfComplex
  end.

(** ** Per-dimension reduction *)

(** [s.step not in (None, 1)] *)
Definition step_supported (s : slice) : bool :=
  match step s with
  | None => true
  | Some k => k =? 1
  end.

(** [slice_to_begin_shape(s, size)]; the pair [(None, 0)] is the empty
    result. *)
Definition slice_to_begin_shape (s : slice) (size : Z) : result (option Z * Z) :=
  if negb (step_supported s) then Raise NontrivialSteps
  else
    let begin_or_empty : option Z :=
      match start s with
      | None => Some 0
      | Some st =>
          if (- size <=? st) && (st <? 0) then Some (size + st)
          else if (st <? - size) || (size <=? st) then None
          else Some st
      end in
    match begin_or_empty with
    | None => Ok (None, 0)
    | Some begin =>
        let shape :=
          match stop s with
          | None => size - begin
          | Some sp =>
              if size <? sp then size - begin
              else if sp <? 0 then (size + sp) - begin
              else sp - begin
          end in
        if shape <? 1 then Ok (None, 0)
        else Ok (Some begin, shape)
    end.

(** [int_to_begin_shape(i, size)] *)
Definition int_to_begin_shape (i size : Z) : result (option Z * Z) :=
  if (- size <? i) && (i <? 0) then Ok (Some (i + size), 1)
  else if (size <=? i) || (i <? - size) then Raise (IndexOutOfRange i size)
  else Ok (Some i, 1).

(** ** The dataset facade *)

(** What the storage-engine handle [_impl] exposes to this module.  The
    engine reports [ndim] as the number of entries of [shape]. *)
Record dset_impl := DsetImpl {
  impl_shape : list Z;
  impl_dtype : np_dtype;
  impl_is_zarr : bool
}.

Record Dataset := MkDataset {
  path : string;
  _impl : dset_impl
}.

Definition shape (self : Dataset) : list Z := impl_shape (_impl self).
Definition ndim (self : Dataset) : Z := Z.of_nat (length (shape self)).
Definition dtype (self : Dataset) : np_dtype := impl_dtype (_impl self).
Definition is_zarr (self : Dataset) : bool := impl_is_zarr (_impl self).

(** [self.shape[d]] for a non-negative [d]. *)
Definition shape_at (self : Dataset) (d : nat) : result Z :=
  match shape self !! d with
  | Some n => Ok n
  | None => Raise TupleIndexOutOfRange
  end.

Definition is_ellipsis (item : index_item) : bool :=
  match item with IEllipsis => true | _ => false end.

(** [item != Ellipsis] *)
Definition not_ellipsis (item : index_item) : Prop := is_ellipsis item = false.

Global Instance not_ellipsis_dec (item : index_item) : Decision (not_ellipsis item).
Proof. unfold not_ellipsis. apply _. Defined.

(** The [while] loop that expands an ellipsis met when [d] dimensions were
    resolved, in an index list of [len_index] entries.  Every iteration
    appends one pair, so the loop runs [ndim - (len_index - 1)] times when it
    is entered with [d] pairs; [fuel] is that count (see
    [fill_ellipsis_exits]). *)
Fixpoint fill_ellipsis (self : Dataset) (len_index : Z) (d : Z) (fuel : nat)
    (start_shapes : list (option Z * Z)) : result (list (option Z * Z)) :=
  if Z.of_nat (length start_shapes) + (len_index - d - 1) <? ndim self then
    match fuel with
    | O => Ok start_shapes
    | S fuel' =>
        sz ← shape_at self (length start_shapes);
        fill_ellipsis self len_index d fuel' (start_shapes ++ [(Some 0, sz)])
    end
  else Ok start_shapes.

(** The body of [for item in index_lst], as a fold over the remaining
    entries with the loop-carried [start_shapes] and [found_ellipsis]. *)
Fixpoint walk (self : Dataset) (len_index : Z) (items : list index_item)
    (start_shapes : list (option Z * Z)) (found_ellipsis : bool)
    : result (list (option Z * Z)) :=
  match items with
  | [] => Ok start_shapes
  | item :: rest =>
      let d := length start_shapes in
      match item with
      | ISlice s =>
          sz ← shape_at self d;
          bs ← slice_to_begin_shape s sz;
          walk self len_index rest (start_shapes ++ [bs]) found_ellipsis
      | INum n =>
          i ← py_int n;
          sz ← shape_at self d;
          bs ← int_to_begin_shape i sz;
          walk self len_index rest (start_shapes ++ [bs]) found_ellipsis
      | IEllipsis =>
          if found_ellipsis then Raise OnlyOneEllipsis
          else
            filled ← fill_ellipsis self len_index (Z.of_nat d)
                       (Z.to_nat (ndim self - (len_index - 1))) start_shapes;
            walk self len_index rest filled true
      | IOther _ => Raise AdvancedSelection
      end
  end.

(** [zip( *start_shapes)] unpacked into two names. *)
Definition unzip_roi (start_shapes : list (option Z * Z))
    : result (list (option Z) * list Z) :=
  match start_shapes with
  | [] => Raise UnpackEmpty
  | _ => Ok (map fst start_shapes, map snd start_shapes)
  end.

(** The list [index_lst] that [index_to_roi] walks, after the implicit
    ellipsis has been appended. *)
Definition index_list (self : Dataset) (idx : index) : result (list index_item) :=
  index_lst ← match idx with
              | IdxTuple l => Ok l
              | IdxBare (IOther _) => Raise AdvancedSelection
              | IdxBare i => Ok [i]
              end;
  if ndim self <? Z.of_nat (length (filter not_ellipsis index_lst))
  then Raise SequenceTooLong
  else if (Z.of_nat (length index_lst) <? ndim self)
          && negb (existsb is_ellipsis index_lst)
  then Ok (index_lst ++ [IEllipsis])
  else Ok index_lst.

Definition index_to_roi (self : Dataset) (idx : index)
    : result (list (option Z) * list Z) :=
  index_lst ← index_list self idx;
  start_shapes ← walk self (Z.of_nat (length index_lst)) index_lst [] false;
  unzip_roi start_shapes.

(** A dataset of the given shape, for examples. *)
Definition dataset_of_shape (sh : list Z) : Dataset :=
  MkDataset "data" (DsetImpl sh float64 true).


(** ** Reading through [__getitem__] *)

(** An in-memory array: its shape and the element at each multi-index. *)
Record ndarray (V : Type) := NdArray {
  arr_shape : list Z;
  arr_at : list Z -> V
}.
Arguments NdArray {V} _ _.
Arguments arr_shape {V} _.
Arguments arr_at {V} _ _.

(** What [__getitem__] returns: an array, or one element of it. *)
Inductive item_value (V : Type) :=
| Block (a : ndarray V)
| Element (v : V).
Arguments Block {V} a.
Arguments Element {V} v.

Definition is_number (item : index_item) : bool :=
  match item with INum _ => true | _ => false end.

(** The condition inside the [try] block of [__getitem__]:
    [len(index) == self.ndim and all(isinstance(i, numbers.Number) for i in index)].
    Numbers, slices, [Ellipsis] and [None] have no [len()]. *)
Definition squeeze_test (self : Dataset) (idx : index) : result bool :=
  match idx with
  | IdxTuple l => Ok ((Z.of_nat (length l) =? ndim self) && forallb is_number l)
  | IdxBare (IOther (OStr s)) =>
      Ok ((Z.of_nat (String.length s) =? ndim self)
          && (Z.of_nat (String.length s) =? 0))
  | IdxBare (IOther (OList l)) => Ok (Z.of_nat (length l) =? ndim self)
  | IdxBare _ => Raise NoLen
  end.

Section getitem.
(** The element type, [np.empty] and the engine's [read_subarray], which
    fills the buffer it is given and may fail. *)
Context {V : Type}.
Variable np_empty : list Z -> np_dtype -> list Z -> V.
Variable read_subarray :
  dset_impl -> ndarray V -> list (option Z) -> result (list Z -> V).

Definition __getitem__ (self : Dataset) (idx : index) : result (item_value V) :=
  '(roi_begin, shp) ← index_to_roi self idx;
  let out := NdArray shp (np_empty shp (dtype self)) in
  if existsb (Z.eqb 0) shp then Ok (Block out)
  else
    filled ← read_subarray (_impl self) out roi_begin;
    let out := NdArray shp filled in
    match squeeze_test self idx with
    | Ok true => Ok (Element (arr_at out (replicate (length (arr_shape out)) 0)))
    | Ok false => Ok (Block out)
    | Raise e =>
        if decide (class_of e = TypeError) then Ok (Block out) else Raise e
    end.

(** The array [__getitem__] returns when it does not squeeze: the buffer
    as allocated when some extent is 0, the buffer as read otherwise. *)
Definition block_of (self : Dataset) (shp : list Z) (filled : list Z -> V)
    : ndarray V :=
  NdArray shp (if existsb (Z.eqb 0) shp then np_empty shp (dtype self) else filled).
End getitem.

(** ** JSON documents and Python dictionaries *)

(** The values that [json.dump] writes and [json.load] returns; a [dict]
    keeps its keys in insertion order. *)
#[local] Set Warnings "-register-all".
Inductive pyval :=
| PNone
| PBool (b : bool)
| PInt (i : Z)
| PFloat (f : spec_float)
| PStr (s : string)
| PList (l : list pyval)
| PDict (d : list (string * pyval)).
#[local] Set Warnings "register-all".

Definition pydict := list (string * pyval).

(** [d.get(k)] as an option, [d.get(k, default)], and [d[k] = v]. *)
Fixpoint dict_lookup (k : string) (d : pydict) : option pyval :=
  match d with
  | [] => None
  | (k', v) :: d' => if String.eqb k k' then Some v else dict_lookup k d'
  end.

Definition dict_get (d : pydict) (k : string) (default : pyval) : pyval :=
  match dict_lookup k d with
  | Some v => v
  | None => default
  end.

Fixpoint dict_set (k : string) (v : pyval) (d : pydict) : pydict :=
  match d with
  | [] => [(k, v)]
  | (k', v') :: d' =>
      if String.eqb k k' then (k', v) :: d' else (k', v') :: dict_set k v d'
  end.

(** [v == 'literal'] *)
Definition py_eq_str (v : pyval) (lit : string) : bool :=
  match v with
  | PStr s => String.eqb s lit
  | _ => false
  end.

(** [v[k]] for a string key [k]. *)
Definition py_getitem (v : pyval) (k : string) : result pyval :=
  match v with
  | PDict d =>
      match dict_lookup k d with
      | Some x => Ok x
      | None => Raise (MissingKey k)
      end
  | _ => Raise NotSubscriptable
  end.

Fixpoint is_prefix (p s : string) : bool :=
  match p, s with
  | EmptyString, _ => true
  | String a p', String b s' => Ascii.eqb a b && is_prefix p' s'
  | String _ _, EmptyString => false
  end.

Fixpoint is_substring (p s : string) : bool :=
  is_prefix p s ||
  match s with
  | EmptyString => false
  | String _ s' => is_substring p s'
  end.

(** ['literal' in v] *)
Definition py_contains_str (v : pyval) (lit : string) : result bool :=
  match v with
  | PDict d => Ok (bool_decide (is_Some (dict_lookup lit d)))
  | PList l => Ok (existsb (fun x => py_eq_str x lit) l)
  | PStr s => Ok (is_substring lit s)
  | _ => Raise NotIterable
  end.

(** ** Compression options *)

Definition dtype_dict : list (np_dtype * string) :=
  [(uint8, "uint8"); (uint16, "uint16"); (uint32, "uint32"); (uint64, "uint64");
   (int8, "int8"); (int16, "int16"); (int32, "int32"); (int64, "int64");
   (float32, "float32"); (float64, "float64")].

Definition zarr_dtype_dict : list (np_dtype * string) :=
  [(uint8, "<u1"); (uint16, "<u2"); (uint32, "<u4"); (uint64, "<u8");
   (int8, "<i1"); (int16, "<i2"); (int32, "<i4"); (int64, "<i8");
   (float32, "<f4"); (float64, "<f8")].

Fixpoint dtype_lookup (d : np_dtype) (table : list (np_dtype * string))
    : option string :=
  match table with
  | [] => None
  | (d', s) :: table' => if decide (d = d') then Some s else dtype_lookup d table'
  end.

Definition compressors_zarr : list string := ["raw"; "blosc"; "zlib"; "bzip2"].
Definition compressors_n5 : list string := ["raw"; "gzip"; "bzip2"].
Definition zarr_default_compressor : string := "blosc".
Definition n5_default_compressor : string := "gzip".

(** [compression in compressors] *)
Definition str_in (c : string) (l : list string) : bool :=
  existsb (String.eqb c) l.

Definition _to_zarr_compression_options (compression : string)
    (compression_options : pydict) : result pyval :=
  let opts : pydict := [] in
  if String.eqb compression "blosc" then
    let opts := dict_set "id" (PStr "blosc") opts in
    let opts := dict_set "cname" (dict_get compression_options "codec" (PStr "lz4")) opts in
    let opts := dict_set "clevel" (dict_get compression_options "level" (PInt 5)) opts in
    let opts := dict_set "shuffle" (dict_get compression_options "shuffle" (PInt 1)) opts in
    Ok (PDict opts)
  else if String.eqb compression "zlib" then
    let opts := dict_set "id" (PStr "zlib") opts in
    let opts := dict_set "level" (dict_get compression_options "level" (PInt 5)) opts in
    Ok (PDict opts)
  else if String.eqb compression "bzip2" then
    let opts := dict_set "id" (PStr "bzip2") opts in
    let opts := dict_set "level" (dict_get compression_options "level" (PInt 5)) opts in
    Ok (PDict opts)
  else if String.eqb compression "raw" then Ok PNone
  else Raise (CompressionNotSupported true compression).

Definition _to_n5_compression_options (compression : string)
    (compression_options : pydict) : result pyval :=
  let opts : pydict := [] in
  if String.eqb compression "gzip" then
    let opts := dict_set "type" (PStr "gzip") opts in
    let opts := dict_set "level" (dict_get compression_options "level" (PInt 5)) opts in
    Ok (PDict opts)
  else if String.eqb compression "bzip2" then
    let opts := dict_set "type" (PStr "bzip2") opts in
    let opts := dict_set "blockSize" (dict_get compression_options "level" (PInt 5)) opts in
    Ok (PDict opts)
  else if String.eqb compression "raw" then
    Ok (PDict (dict_set "type" (PStr "raw") opts))
  else Raise (CompressionNotSupported false compression).

(** The body of [_read_zarr_compression_options] after [json.load]:
    [zarr_opts] is the whole document of the [.zarray] file. *)
Definition zarr_compression_options_of (zarr_opts : pyval) : result pydict :=
  let opts : pydict := [] in
  match zarr_opts with
  | PNone => Ok (dict_set "compression" (PStr "raw") opts)
  | _ =>
      id ← py_getitem zarr_opts "id";
      if py_eq_str id "blosc" then
        let opts := dict_set "compression" (PStr "blosc") opts in
        clevel ← py_getitem zarr_opts "clevel";
        let opts := dict_set "level" clevel opts in
        shuffle ← py_getitem zarr_opts "shuffle";
        let opts := dict_set "shuffle" shuffle opts in
        cname ← py_getitem zarr_opts "cname";
        Ok (dict_set "codec" cname opts)
      else
        id ← py_getitem zarr_opts "id";
        if py_eq_str id "zlib" then
          let opts := dict_set "compression" (PStr "zlib") opts in
          level ← py_getitem zarr_opts "level";
          Ok (dict_set "level" level opts)
        else
          id ← py_getitem zarr_opts "id";
          if py_eq_str id "bzip2" then
            let opts := dict_set "compression" (PStr "bzip2") opts in
            level ← py_getitem zarr_opts "level";
            Ok (dict_set "level" level opts)
          else Ok opts
  end.

(** The body of [_read_n5_compression_options] after [json.load]:
    [n5_opts] is the whole document of the [attributes.json] file. *)
Definition n5_compression_options_of (n5_opts : pyval) : result pydict :=
  let opts : pydict := [] in
  old ← py_contains_str n5_opts "compressionType";
  '(ctype, new_compression) ←
     (if old : bool then
        ctype ← py_getitem n5_opts "compressionType";
        Ok (ctype, false)
      else
        compression ← py_getitem n5_opts "compression";
        ctype ← py_getitem compression "type";
        Ok (ctype, true));
  if py_eq_str ctype "raw" then
    Ok (dict_set "compression" (PStr "raw") opts)
  else if py_eq_str ctype "gzip" then
    let opts := dict_set "compression" (PStr "gzip") opts in
    level ← (if new_compression : bool then
               compression ← py_getitem n5_opts "compression";
               py_getitem compression "level"
             else Ok (PInt 5));
    Ok (dict_set "level" level opts)
  else
    inner ← py_getitem ctype "compression";
    if py_eq_str inner "bzip2" then
      let opts := dict_set "compression" (PStr "bzip2") opts in
      level ← (if new_compression : bool then
                 compression ← py_getitem n5_opts "compression";
                 py_getitem compression "blockSize"
               else Ok (PInt 5));
      Ok (dict_set "level" level opts)
    else Ok opts.

(** ** The operating system and the storage engine *)

(** [posixpath.join(a, b)] for two components. *)
Definition ends_with_slash (a : string) : bool :=
  is_prefix "/" (String.rev a) && negb (String.length a =? 0)%nat.

Definition os_path_join (a b : string) : string :=
  if is_prefix "/" b then b
  else if (String.length a =? 0)%nat || ends_with_slash a then a +:+ b
  else a +:+ "/" +:+ b.

(** Computations over a file-system state that may raise; a raised
    exception keeps the state reached so far. *)
Definition M (fs A : Type) : Type := fs -> result A * fs.

Global Instance M_ret {fs} : MRet (M fs) := fun A a st => (Ok a, st).
Global Instance M_bind {fs} : MBind (M fs) := fun A B k m st =>
  match m st with
  | (Ok a, st') => k a st'
  | (Raise e, st') => (Raise e, st')
  end.

Definition lift {fs A} (r : result A) : M fs A := fun st => (r, st).

(** The calls this module makes into [os], [json] and the engine:
    [os.path.exists], [os.mkdir], [open(p, 'w')] followed by [json.dump],
    [open(p, 'r')] followed by [json.load], and the engine's
    [open_dataset(path, mode)]. *)
Class OS (fs : Type) := {
  os_path_exists : string -> fs -> bool;
  os_mkdir : string -> M fs unit;
  json_dump_to : string -> pyval -> M fs unit;
  json_load_from : string -> fs -> result pyval;
  open_dataset : string -> string -> M fs dset_impl
}.

(** ** Creating datasets and reading their compression options *)

Section dataset_files.
Context {fs : Type} `{OS fs}.

Definition dtype_name (dt : np_dtype) (table : list (np_dtype * string))
    : result pyval :=
  match dtype_lookup dt table with
  | Some s => Ok (PStr s)
  | None => Raise (MissingDtype dt)
  end.

(** The [params] dictionaries written to the sidecar files. *)
Definition zarr_params (dtype_s : pyval) (shape chunks : list Z)
    (fill_value compressor : pyval) : pydict :=
  [("dtype", dtype_s);
   ("shape", PList (map PInt shape));
   ("chunks", PList (map PInt chunks));
   ("fill_value", fill_value);
   ("compressor", compressor)].

Definition n5_params (dtype_s : pyval) (shape chunks : list Z)
    (compression : pyval) : pydict :=
  [("dataType", dtype_s);
   ("dimensions", PList (map PInt (rev shape)));
   ("blockSize", PList (map PInt (rev chunks)));
   ("compression", compression)].

Definition _create_dataset_zarr (path : string) (dt : np_dtype)
    (shape chunks : list Z) (compression : string)
    (compression_options : pydict) (fill_value : pyval) : M fs unit :=
  _ ← os_mkdir path;
  dtype_s ← lift (dtype_name dt zarr_dtype_dict);
  compressor ← lift (_to_zarr_compression_options compression compression_options);
  let params := zarr_params dtype_s shape chunks fill_value compressor in
  json_dump_to (os_path_join path ".zarray") (PDict params).

Definition _create_dataset_n5 (path : string) (dt : np_dtype)
    (shape chunks : list Z) (compression : string)
    (compression_options : pydict) : M fs unit :=
  _ ← os_mkdir path;
  dtype_s ← lift (dtype_name dt dtype_dict);
  compressor ← lift (_to_n5_compression_options compression compression_options);
  let params := n5_params dtype_s shape chunks compressor in
  json_dump_to (os_path_join path "attributes.json") (PDict params).

(** The compression that [create_dataset] passes on, after the default
    has been substituted for an unsupported one. *)
Definition effective_compression (is_zarr : bool) (compression : string) : string :=
  if is_zarr && negb (str_in compression compressors_zarr)
  then zarr_default_compressor
  else if negb is_zarr && negb (str_in compression compressors_n5)
  then n5_default_compressor
  else compression.

(** [create_dataset]; [dt] is the parsed [np.dtype(dtype)].  The returned
    object is [cls(path, open_dataset(path, mode))]. *)
Definition create_dataset (path : string) (dt : np_dtype)
    (shape chunks : list Z) (is_zarr : bool) (compression : string)
    (compression_options : pydict) (fill_value : pyval) (mode : string)
    : M fs Dataset :=
  fun st =>
    if os_path_exists path st then (Raise CannotCreateExisting, st)
    else
      let compression := effective_compression is_zarr compression in
      let parsed_dtype := dt in
      (_ ← (if is_zarr then
              if negb (bool_decide (is_Some (dtype_lookup parsed_dtype zarr_dtype_dict)))
              then lift (Raise (InvalidDataType true dt))
              else _create_dataset_zarr path parsed_dtype shape chunks
                     compression compression_options fill_value
            else
              if negb (bool_decide (is_Some (dtype_lookup parsed_dtype dtype_dict)))
              then lift (Raise (InvalidDataType false dt))
              else _create_dataset_n5 path parsed_dtype shape chunks
                     compression compression_options);
       impl ← open_dataset path mode;
       mret (MkDataset path impl)) st.

Definition _read_zarr_compression_options (self : Dataset) (st : fs)
    : result pydict :=
  zarr_opts ← json_load_from (os_path_join (path self) ".zarray") st;
  zarr_compression_options_of zarr_opts.

Definition _read_n5_compression_options (self : Dataset) (st : fs)
    : result pydict :=
  n5_opts ← json_load_from (os_path_join (path self) "attributes.json") st;
  n5_compression_options_of n5_opts.

Definition compression_options (self : Dataset) (st : fs) : result pydict :=
  if is_zarr self then _read_zarr_compression_options self st
  else _read_n5_compression_options self st.
End dataset_files.

(** ** An in-memory file system *)

Inductive node :=
| Dir
| File (content : pyval).

(** A flat name space: a path is a key, and a directory can be made
    wherever nothing exists yet. *)
Definition mem_mkdir (p : string) : M (gmap string node) unit := fun st =>
  match st !! p with
  | Some _ => (Raise (OsFailure "FileExistsError"), st)
  | None => (Ok tt, <[p := Dir]> st)
  end.

Definition mem_dump (p : string) (doc : pyval) : M (gmap string node) unit :=
  fun st =>
    match st !! p with
    | Some Dir => (Raise (OsFailure "IsADirectoryError"), st)
    | _ => (Ok tt, <[p := File doc]> st)
    end.

Definition mem_load (p : string) (st : gmap string node) : result pyval :=
  match st !! p with
  | Some (File doc) => Ok doc
  | Some Dir => Raise (OsFailure "IsADirectoryError")
  | None => Raise (OsFailure "FileNotFoundError")
  end.

Fixpoint dtype_of_name (s : string) (table : list (np_dtype * string))
    : option np_dtype :=
  match table with
  | [] => None
  | (d, s') :: table' => if String.eqb s s' then Some d else dtype_of_name s table'
  end.

Definition ints_of (v : pyval) : option (list Z) :=
  match v with
  | PList l => mapM (fun x => match x with PInt i => Some i | _ => None end) l
  | _ => None
  end.

(** Modelled from the spec: the storage engine's [open_dataset] is not part
    of [dataset.py].  It reads and parses the sidecar file of the dialect
    found at [path], reverses the axis order back for N5, and fails on a
    schema mismatch. *)
Definition mem_open_dataset (p mode : string) : M (gmap string node) dset_impl :=
  fun st =>
    let corrupt := (Raise (EngineFailure "CorruptMetadata"), st) in
    match st !! os_path_join p ".zarray", st !! os_path_join p "attributes.json" with
    | Some (File (PDict d)), _ =>
        match dict_lookup "dtype" d, dict_lookup "shape" d with
        | Some (PStr s), Some sh =>
            match dtype_of_name s zarr_dtype_dict, ints_of sh with
            | Some dt, Some l => (Ok (DsetImpl l dt true), st)
            | _, _ => corrupt
            end
        | _, _ => corrupt
        end
    | None, Some (File (PDict d)) =>
        match dict_lookup "dataType" d, dict_lookup "dimensions" d with
        | Some (PStr s), Some sh =>
            match dtype_of_name s dtype_dict, ints_of sh with
            | Some dt, Some l => (Ok (DsetImpl (rev l) dt false), st)
            | _, _ => corrupt
            end
        | _, _ => corrupt
        end
    | None, None => (Raise (EngineFailure "NotFound"), st)
    | _, _ => corrupt
    end.

Global Instance mem_os : OS (gmap string node) := {|
  os_path_exists p st := bool_decide (is_Some (st !! p));
  os_mkdir := mem_mkdir;
  json_dump_to := mem_dump;
  json_load_from := mem_load;
  open_dataset := mem_open_dataset
|}.

(** ** The ROI invariant *)

(** The invariant of one resolved dimension of size [sz]: either the empty
    pair, or an offset that ends inside the dimension and is non-negative
    unless it is exactly [- sz]. *)
Definition dim_ok (sz : Z) (bs : option Z * Z) : Prop :=
  match bs with
  | (None, n) => n = 0
  | (Some b, n) => b + n <= sz /\ (b <> - sz -> 0 <= b)
  end.

(** The pairs of a prefix of the dimensions, each against its own size. *)
Definition dims_ok (sh : list Z) (start_shapes : list (option Z * Z)) : Prop :=
  Forall2 dim_ok (take (length start_shapes) sh) start_shapes.

(** The ROI invariant without the empty case: every dimension has an
    integer offset that is non-negative and ends inside the dimension. *)
Definition roi_in_bounds (sh : list Z) (roi_begin : list (option Z))
    (roi_shape : list Z) : Prop :=
  forall d sz, sh !! d = Some sz ->
    exists b n, roi_begin !! d = Some (Some b) /\ roi_shape !! d = Some n
                /\ 0 <= b /\ b + n <= sz.

(** The positions a slice denotes on a dimension of [size] entries, with a
    negative bound counted from the end: the interval from [slice_lo] to
    [slice_hi].  The slice lies outside the dimension when no position of
    that interval is a position of the dimension. *)
Definition from_end (size b : Z) : Z := if b <? 0 then size + b else b.

Definition slice_lo (s : slice) (size : Z) : Z :=
  match start s with None => 0 | Some a => from_end size a end.

Definition slice_hi (s : slice) (size : Z) : Z :=
  match stop s with None => size | Some b => from_end size b end.

Definition slice_outside (s : slice) (size : Z) : Prop :=
  forall k, slice_lo s size <= k < slice_hi s size -> ~ (0 <= k < size).

(** The same as a test on the two ends of the interval. *)
Definition slice_outsideb (s : slice) (size : Z) : bool :=
  (slice_hi s size <=? slice_lo s size)
  || (slice_hi s size <=? 0)
  || (size <=? slice_lo s size).

(** The slice [:] and the pairs an ellipsis stands for: dimensions [from],
    ..., [from + k - 1], each in full. *)
Definition full_slice : slice := Slice None None None.

Definition full_pairs (self : Dataset) (from k : nat) : list (option Z * Z) :=
  map (fun sz => (Some 0, sz)) (take k (drop from (shape self))).


(** The entries of an index expression, a bare object being a sequence of
    one entry. *)
Definition index_entries (idx : index) : list index_item :=
  match idx with
  | IdxTuple l => l
  | IdxBare i => [i]
  end.




(** A stand-in engine for examples: every element read is 42. *)
Definition example_empty : list Z -> np_dtype -> list Z -> Z := fun _ _ _ => 0.
Definition example_read (impl : dset_impl) (out : ndarray Z)
    (roi_begin : list (option Z)) : result (list Z -> Z) := Ok (fun _ => 42).

(** The sidecar file of a dialect, and the document creation writes to it
    when the dialect's default compressor is in effect. *)
Definition sidecar_file (is_zarr : bool) (path : string) : string :=
  os_path_join path (if is_zarr then ".zarray" else "attributes.json").

Definition default_sidecar_doc (is_zarr : bool) (name : string)
    (shape chunks : list Z) (compression_options : pydict)
    (fill_value : pyval) : pyval :=
  if is_zarr then
    PDict (zarr_params (PStr name) shape chunks fill_value
             (PDict [("id", PStr "blosc");
                     ("cname", dict_get compression_options "codec" (PStr "lz4"));
                     ("clevel", dict_get compression_options "level" (PInt 5));
                     ("shuffle", dict_get compression_options "shuffle" (PInt 1))]))
  else
    PDict (n5_params (PStr name) shape chunks
             (PDict [("type", PStr "gzip");
                     ("level", dict_get compression_options "level" (PInt 5))])).

(** ** Writing through [__setitem__] and reading by corners *)

(** The exceptions of the writing and corner-reading methods: their own
    raise sites, NumPy's refusal of a negative extent, and everything the
    calls they make can raise. *)
Inductive ext_exn :=
| InvalidItem                 (* ValueError("Invalid item") *)
| ComplicatedBroadcasting     (* ValueError("Complicated broadcasting is not supported") *)
| NegativeDimensions          (* ValueError of np.empty: negative dimensions are not allowed *)
| Core (e : exn).

Inductive outcome (A : Type) :=
| Returned (a : A)
| Raised (e : ext_exn).
Arguments Returned {A} a.
Arguments Raised {A} e.

Definition of_result {A} (r : result A) : outcome A :=
  match r with
  | Ok a => Returned a
  | Raise e => Raised (Core e)
  end.

(** The right-hand side of an assignment [ds[index] = item]. *)
Inductive set_item (V : Type) :=
| ItemNumber (n : number)
| ItemArray (a : ndarray V)
| ItemOther (o : other_obj).
Arguments ItemNumber {V} n.
Arguments ItemArray {V} a.
Arguments ItemOther {V} o.

Section setitem.
(** The engine's [write_subarray] and [write_scalar] act on the stored
    chunks, here a state of type [store]; [np.require(item, requirements='C')]
    is the same array in C order. *)
Context {V store : Type}.
Variable write_subarray :
  dset_impl -> ndarray V -> list (option Z) -> store -> result unit * store.
Variable write_scalar :
  dset_impl -> list (option Z) -> list Z -> number -> store -> result unit * store.

Definition __setitem__ (self : Dataset) (idx : index) (item : set_item V)
    (st : store) : outcome unit * store :=
  let with_roi (write : list (option Z) -> list Z -> outcome unit * store) :=
    match index_to_roi self idx with
    | Raise e => (Raised (Core e), st)
    | Ok (roi_begin, shp) =>
        if existsb (Z.eqb 0) shp then (Returned tt, st)
        else write roi_begin shp
    end in
  match item with
  | ItemOther _ => (Raised InvalidItem, st)
  | ItemArray a =>
      with_roi (fun roi_begin shp =>
        if negb (Z.of_nat (length (arr_shape a)) =? ndim self)
        then (Raised ComplicatedBroadcasting, st)
        else
          let '(r, st') := write_subarray (_impl self) a roi_begin st in
          (of_result r, st'))
  | ItemNumber n =>
      with_roi (fun roi_begin shp =>
        let '(r, st') := write_scalar (_impl self) roi_begin shp n st in
        (of_result r, st'))
  end.
End setitem.

Section read_corners.
Context {V : Type}.
Variable np_empty : list Z -> np_dtype -> list Z -> V.
Variable read_subarray :
  dset_impl -> ndarray V -> list (option Z) -> result (list Z -> V).

(** The method [Dataset.read_subarray(start, stop)]. *)
Definition Dataset_read_subarray (self : Dataset) (start stop : list Z)
    : outcome (ndarray V) :=
  let shp := zip_with (fun sta sto => sto - sta) start stop in
  if existsb (fun n => n <? 0) shp then Raised NegativeDimensions
  else
    let out := NdArray shp (np_empty shp (dtype self)) in
    match read_subarray (_impl self) out (Some <$> start) with
    | Ok filled => Returned (NdArray shp filled)
    | Raise e => Raised (Core e)
    end.
End read_corners.

(** ** One entry on one dimension *)

(** The pair that an entry other than the ellipsis contributes when it is
    met on a dimension of size [sz]. *)
Definition resolve_item (item : index_item) (sz : Z) : result (option Z * Z) :=
  match item with
  | INum n => i ← py_int n; int_to_begin_shape i sz
  | ISlice s => slice_to_begin_shape s sz
  | IEllipsis => Raise OnlyOneEllipsis
  | IOther _ => Raise AdvancedSelection
  end.

(** [resolved items sizes pairs]: no entry is the ellipsis, and each entry
    resolves on the size at its position to the pair at its position. *)
Definition resolved (items : list index_item) (sizes : list Z)
    (pairs : list (option Z * Z)) : Prop :=
  Forall3 (fun item sz bs => not_ellipsis item /\ resolve_item item sz = Ok bs)
    items sizes pairs.

(** ** What the engine is asked for *)

(** The requests index resolution produces on one dimension of size [sz]:
    an integer offset [b] and an extent [n] of at least 1 that ends inside
    the dimension, with [b] not negative or else exactly [- sz], the offset
    the scalar index [- sz] resolves to. *)
Definition dimension_requested (ob : option Z) (n sz : Z) : bool :=
  match ob with
  | Some b => (1 <=? n) && (b + n <=? sz) && ((0 <=? b) || (b =? - sz))
  | None => false
  end.

(** The same for every dimension of the dataset. *)
Definition roi_requested (impl : dset_impl) (roi_begin : list (option Z))
    (shp : list Z) : bool :=
  (length roi_begin =? length (impl_shape impl))%nat
  && (length shp =? length (impl_shape impl))%nat
  && forallb (fun '(ob, n, sz) => dimension_requested ob n sz)
       (zip (zip roi_begin shp) (impl_shape impl)).

(** The offsets of an array write: one integer per dimension, inside the
    dimension or else exactly minus its size. *)
Definition begin_requested (impl : dset_impl) (roi_begin : list (option Z)) : bool :=
  (length roi_begin =? length (impl_shape impl))%nat
  && forallb (fun '(ob, sz) =>
                match ob with
                | Some b => ((0 <=? b) && (b <? sz)) || (b =? - sz)
                | None => false
                end)
       (zip roi_begin (impl_shape impl)).

(** Engines that refuse every other request. *)
Definition guarded_read {V : Type}
    (read : dset_impl -> ndarray V -> list (option Z) -> result (list Z -> V))
    (impl : dset_impl) (out : ndarray V) (roi_begin : list (option Z))
    : result (list Z -> V) :=
  if roi_requested impl roi_begin (arr_shape out)
  then read impl out roi_begin
  else Raise (EngineFailure "WrongRequest").

Definition guarded_write_subarray {V store : Type}
    (write : dset_impl -> ndarray V -> list (option Z) -> store -> result unit * store)
    (impl : dset_impl) (a : ndarray V) (roi_begin : list (option Z)) (st : store)
    : result unit * store :=
  if begin_requested impl roi_begin
     && (length (arr_shape a) =? length (impl_shape impl))%nat
  then write impl a roi_begin st
  else (Raise (EngineFailure "WrongRequest"), st).

Definition guarded_write_scalar {store : Type}
    (write : dset_impl -> list (option Z) -> list Z -> number -> store
             -> result unit * store)
    (impl : dset_impl) (roi_begin : list (option Z)) (shp : list Z) (n : number)
    (st : store) : result unit * store :=
  if roi_requested impl roi_begin shp
  then write impl roi_begin shp n st
  else (Raise (EngineFailure "WrongRequest"), st).

(** Stand-in engine writes for examples: the store counts the writes. *)
Definition example_write_subarray (impl : dset_impl) (a : ndarray Z)
    (roi_begin : list (option Z)) (st : nat) : result unit * nat :=
  (Ok tt, S st).
Definition example_write_scalar (impl : dset_impl) (roi_begin : list (option Z))
    (shp : list Z) (n : number) (st : nat) : result unit * nat :=
  (Ok tt, S st).

(** Whether [__getitem__] returns the element instead of the block. *)
Definition squeezes (self : Dataset) (idx : index) : bool :=
  match squeeze_test self idx with
  | Ok true => true
  | _ => false
  end.

(** * Properties of index resolution *)

Ltac zcase1 :=
  match goal with
  | |- context [?a <? ?b] => destruct (Z.ltb_spec a b)
  | |- context [?a <=? ?b] => destruct (Z.leb_spec a b)
  | |- context [?a =? ?b] => destruct (Z.eqb_spec a b)
  | H : context [?a <? ?b] |- _ => destruct (Z.ltb_spec a b)
  | H : context [?a <=? ?b] |- _ => destruct (Z.leb_spec a b)
  | H : context [?a =? ?b] |- _ => destruct (Z.eqb_spec a b)
  end.
Ltac zcases := cbv zeta in *; simpl in *; repeat (zcase1; simpl in *).

(** The scenario of the specification: index [(5, :)] on shape (10, 20). *)
Example index_to_roi_scenario :
  index_to_roi (dataset_of_shape [10; 20])
    (IdxTuple [INum (NInt 5); ISlice (Slice None None None)])
  = Ok ([Some 5; Some 0], [1; 20]).
Proof. reflexivity. Qed.

(** A second ellipsis, too many entries, and a dataset without
    dimensions. *)
Example index_to_roi_two_ellipses :
  index_to_roi (dataset_of_shape [3; 4; 5]) (IdxTuple [IEllipsis; IEllipsis])
  = Raise OnlyOneEllipsis.
Proof. reflexivity. Qed.

Example index_to_roi_too_long :
  index_to_roi (dataset_of_shape [3])
    (IdxTuple [INum (NInt 0); INum (NInt 0)])
  = Raise SequenceTooLong.
Proof. reflexivity. Qed.

Example index_to_roi_no_dimensions :
  index_to_roi (dataset_of_shape []) (IdxTuple []) = Raise UnpackEmpty.
Proof. reflexivity. Qed.

Example index_to_roi_negative_scalar :
  index_to_roi (dataset_of_shape [10; 20])
    (IdxTuple [INum (NInt (-1)); INum (NInt (-20))])
  = Ok ([Some 9; Some (-20)], [1; 1]).
Proof. reflexivity. Qed.

Lemma bind_Ok {A B} (r : result A) (k : A -> result B) (b : B) :
  (r ≫= k) = Ok b -> exists a, r = Ok a /\ k a = Ok b.
Proof. destruct r as [a|e]; simpl; [eauto | discriminate]. Qed.


(** A non-empty slice result starts at a non-negative offset and ends
    inside the dimension. *)
Lemma slice_nonempty_bounds (s : slice) (size b n : Z) :
  slice_to_begin_shape s size = Ok (Some b, n) ->
  0 <= b /\ b + n <= size /\ 1 <= n.
Proof.
  unfold slice_to_begin_shape.
  destruct (step_supported s); simpl; [|discriminate].
  destruct (start s) as [st|], (stop s) as [sp|]; zcases;
    intros Hres; inversion Hres; subst; lia.
Qed.

(** An empty slice result is the pair [(None, 0)]. *)
Lemma slice_empty_shape (s : slice) (size n : Z) :
  slice_to_begin_shape s size = Ok (None, n) -> n = 0.
Proof.
  unfold slice_to_begin_shape.
  destruct (step_supported s); simpl; [|discriminate].
  destruct (start s) as [st|], (stop s) as [sp|]; zcases;
    intros Hres; inversion Hres; reflexivity.
Qed.

(** The only exception of [slice_to_begin_shape] is the step check. *)
Lemma slice_raises_only_step (s : slice) (size : Z) (e : exn) :
  slice_to_begin_shape s size = Raise e ->
  e = NontrivialSteps /\ step_supported s = false.
Proof.
  unfold slice_to_begin_shape.
  destruct (step_supported s); simpl; [|intros [= <-]; auto].
  destruct (start s) as [st|], (stop s) as [sp|]; zcases; discriminate.
Qed.

(** What [int_to_begin_shape] returns on each part of the integer line. *)
Lemma int_to_begin_shape_neg (i size : Z) :
  - size < i < 0 -> int_to_begin_shape i size = Ok (Some (i + size), 1).
Proof. intros. unfold int_to_begin_shape. zcases; (reflexivity || lia). Qed.

Lemma int_to_begin_shape_nonneg (i size : Z) :
  0 <= i < size -> int_to_begin_shape i size = Ok (Some i, 1).
Proof. intros. unfold int_to_begin_shape. zcases; (reflexivity || lia). Qed.

Lemma int_to_begin_shape_outside (i size : Z) :
  i < - size \/ size <= i ->
  int_to_begin_shape i size = Raise (IndexOutOfRange i size).
Proof. intros. unfold int_to_begin_shape. zcases; (reflexivity || lia). Qed.

(** The index [-size] is accepted and returned unchanged. *)
Lemma int_to_begin_shape_minus_size (size : Z) :
  1 <= size -> int_to_begin_shape (- size) size = Ok (Some (- size), 1).
Proof. intros. unfold int_to_begin_shape. zcases; (reflexivity || lia). Qed.

Lemma int_accepted_bounds (i size : Z) (ob : option Z) (n : Z) :
  int_to_begin_shape i size = Ok (ob, n) ->
  n = 1 /\ exists b, ob = Some b /\ b + n <= size
                   /\ (i <> - size -> 0 <= b) /\ (b <> - size -> 0 <= b).
Proof.
  unfold int_to_begin_shape. zcases; intros Hres; inversion Hres; subst;
    (split; [reflexivity|]); eexists; (split; [reflexivity|]); lia.
Qed.


(** ** The walk over the index list *)

Section walk_facts.
Variable self : Dataset.
Variable len_index : Z.

Lemma shape_at_Ok (d : nat) (sz : Z) :
  shape_at self d = Ok sz <-> shape self !! d = Some sz.
Proof.
  unfold shape_at. destruct (shape self !! d); split; intros Hx;
    inversion Hx; reflexivity.
Qed.

Lemma dims_ok_snoc (ss : list (option Z * Z)) (sz : Z) (bs : option Z * Z) :
  dims_ok (shape self) ss -> shape self !! length ss = Some sz ->
  dim_ok sz bs -> dims_ok (shape self) (ss ++ [bs]).
Proof.
  unfold dims_ok. intros Hss Hsz Hbs.
  rewrite length_app, Nat.add_1_r. rewrite (take_S_r _ _ _ Hsz).
  apply Forall2_app; [exact Hss|]. constructor; [exact Hbs | constructor].
Qed.

(** The ellipsis loop keeps the invariant, and with enough fuel it stops
    exactly when its condition turns false. *)
Lemma fill_ellipsis_exits (d : Z) (fuel : nat) :
  forall ss out,
    ndim self - (len_index - d - 1) - Z.of_nat (length ss) <= Z.of_nat fuel ->
    fill_ellipsis self len_index d fuel ss = Ok out ->
    Z.of_nat (length out)
      = Z.max (Z.of_nat (length ss)) (ndim self - (len_index - d - 1))
    /\ (dims_ok (shape self) ss -> dims_ok (shape self) out).
Proof.
  induction fuel as [|fuel IH]; intros ss out Hfuel; simpl.
  - zcases; intros Hres; inversion Hres; subst; split; auto; lia.
  - destruct (Z.ltb_spec (Z.of_nat (length ss) + (len_index - d - 1)) (ndim self)).
    + intros Hres. apply bind_Ok in Hres as (sz & Hsz & Hres).
      apply shape_at_Ok in Hsz.
      apply IH in Hres as [Hlen Hok].
      * rewrite length_app in Hlen. simpl in Hlen. split; [lia|].
        intros Hss. apply Hok. eapply dims_ok_snoc; eauto.
        simpl. split; [lia | intros; lia].
      * rewrite length_app. simpl. lia.
    + intros Hres; inversion Hres; subst. split; auto; lia.
Qed.

(** After the ellipsis every entry resolves one dimension. *)
Lemma walk_after_ellipsis (items : list index_item) :
  forall ss out,
    walk self len_index items ss true = Ok out ->
    Forall not_ellipsis items
    /\ length out = (length ss + length items)%nat
    /\ (dims_ok (shape self) ss -> dims_ok (shape self) out).
Proof.
  induction items as [|item rest IH]; intros ss out; simpl.
  - intros Hres; inversion Hres; subst. repeat split; auto.
  - destruct item as [n|s| |o]; try discriminate.
    + intros Hres.
      apply bind_Ok in Hres as (i & Hi & Hres).
      apply bind_Ok in Hres as (sz & Hsz & Hres).
      apply bind_Ok in Hres as ([ob k] & Hbs & Hres).
      apply shape_at_Ok in Hsz.
      apply IH in Hres as (Hne & Hlen & Hok).
      rewrite length_app in Hlen. simpl in Hlen.
      split; [constructor; [reflexivity | exact Hne]|]. split; [lia|].
      intros Hss. apply Hok. eapply dims_ok_snoc; eauto.
      apply int_accepted_bounds in Hbs as (-> & b & -> & Hb1 & _ & Hb2).
      simpl. split; [lia | exact Hb2].
    + intros Hres.
      apply bind_Ok in Hres as (sz & Hsz & Hres).
      apply bind_Ok in Hres as ([ob k] & Hbs & Hres).
      apply shape_at_Ok in Hsz.
      apply IH in Hres as (Hne & Hlen & Hok).
      rewrite length_app in Hlen. simpl in Hlen.
      split; [constructor; [reflexivity | exact Hne]|]. split; [lia|].
      intros Hss. apply Hok. eapply dims_ok_snoc; eauto.
      destruct ob as [b|].
      * apply slice_nonempty_bounds in Hbs. simpl. lia.
      * apply slice_empty_shape in Hbs. exact Hbs.
Qed.

Lemma filter_not_ellipsis_id (items : list index_item) :
  Forall not_ellipsis items -> filter not_ellipsis items = items.
Proof.
  induction 1 as [|item rest Hitem _ IH]; [reflexivity|].
  rewrite filter_cons_True by exact Hitem. now rewrite IH.
Qed.

Lemma existsb_not_ellipsis (items : list index_item) :
  existsb is_ellipsis items = false <-> Forall not_ellipsis items.
Proof.
  induction items as [|item rest IH]; simpl.
  - split; [constructor | reflexivity].
  - rewrite orb_false_iff, IH. split.
    + intros [? ?]. now constructor.
    + inversion 1; subst. auto.
Qed.

(** Before the ellipsis: when [len_index] is the length of the whole
    list, a successful walk has resolved [len_index] dimensions if there
    was no ellipsis, and [max (len_index - 1) ndim] if there was one (and
    then exactly one). *)
Lemma walk_resolves (items : list index_item) :
  forall ss out,
    walk self len_index items ss false = Ok out ->
    Z.of_nat (length ss + length items) = len_index ->
    Z.of_nat (length out)
      = (if existsb is_ellipsis items
         then Z.max (len_index - 1) (ndim self) else len_index)
    /\ (existsb is_ellipsis items = true ->
        S (length (filter not_ellipsis items)) = length items)
    /\ (dims_ok (shape self) ss -> dims_ok (shape self) out).
Proof.
  induction items as [|item rest IH]; intros ss out.
  - simpl. intros Hres Hlen; inversion Hres; subst.
    repeat split; auto; try discriminate; try lia.
  - destruct item as [n|s| |o]; cbn [walk existsb is_ellipsis orb length];
      try discriminate.
    + intros Hres Hlen.
      apply bind_Ok in Hres as (i & Hi & Hres).
      apply bind_Ok in Hres as (sz & Hsz & Hres).
      apply bind_Ok in Hres as ([ob k] & Hbs & Hres).
      apply shape_at_Ok in Hsz.
      apply IH in Hres as (Hout & Hcnt & Hok);
        [|rewrite length_app; simpl; lia].
      split; [exact Hout|]. split.
      * intros He. rewrite filter_cons_True by reflexivity.
        simpl. now rewrite Hcnt.
      * intros Hss. apply Hok. eapply dims_ok_snoc; eauto.
        apply int_accepted_bounds in Hbs as (-> & b & -> & Hb1 & _ & Hb2).
        simpl. split; [lia | exact Hb2].
    + intros Hres Hlen.
      apply bind_Ok in Hres as (sz & Hsz & Hres).
      apply bind_Ok in Hres as ([ob k] & Hbs & Hres).
      apply shape_at_Ok in Hsz.
      apply IH in Hres as (Hout & Hcnt & Hok);
        [|rewrite length_app; simpl; lia].
      split; [exact Hout|]. split.
      * intros He. rewrite filter_cons_True by reflexivity.
        simpl. now rewrite Hcnt.
      * intros Hss. apply Hok. eapply dims_ok_snoc; eauto.
        destruct ob as [b|].
        -- apply slice_nonempty_bounds in Hbs. simpl. lia.
        -- apply slice_empty_shape in Hbs. exact Hbs.
    + intros Hres Hlen.
      apply bind_Ok in Hres as (filled & Hfill & Hres).
      apply fill_ellipsis_exits in Hfill as [Hflen Hfok]; [|lia].
      apply walk_after_ellipsis in Hres as (Hne & Hrlen & Hrok).
      split; [lia|]. split; [|auto].
      intros _. rewrite filter_cons_False by (unfold not_ellipsis; simpl; discriminate).
      now rewrite filter_not_ellipsis_id.
Qed.
End walk_facts.

(** ** Facts about [index_list] *)

Lemma index_list_shape (self : Dataset) (idx : index) (lst : list index_item) :
  index_list self idx = Ok lst ->
  Z.of_nat (length (filter not_ellipsis lst)) <= ndim self
  /\ (existsb is_ellipsis lst = false -> Z.of_nat (length lst) = ndim self).
Proof.
  unfold index_list. intros Hres.
  apply bind_Ok in Hres as (l & Hl & Hres).
  destruct (Z.ltb_spec (ndim self) (Z.of_nat (length (filter not_ellipsis l))));
    [discriminate|].
  destruct (Z.ltb_spec (Z.of_nat (length l)) (ndim self));
    destruct (existsb is_ellipsis l) eqn:He; simpl in Hres;
    inversion Hres; subst; clear Hres.
  - split; [lia | congruence].
  - rewrite filter_app, length_app, existsb_app. simpl.
    rewrite orb_true_r. split; [lia | discriminate].
  - split; [lia | congruence].
  - split; [lia|]. intros _.
    apply existsb_not_ellipsis in He.
    rewrite (filter_not_ellipsis_id _ He) in *. lia.
Qed.

(** A successful resolution has one pair per dimension of the dataset, and
    every pair satisfies [dim_ok] for its dimension. *)
Lemma index_to_roi_dims (self : Dataset) (idx : index)
    (roi_begin : list (option Z)) (roi_shape : list Z) :
  index_to_roi self idx = Ok (roi_begin, roi_shape) ->
  exists start_shapes,
    roi_begin = map fst start_shapes /\ roi_shape = map snd start_shapes
    /\ length start_shapes = length (shape self)
    /\ Forall2 dim_ok (shape self) start_shapes.
Proof.
  unfold index_to_roi. intros Hres.
  apply bind_Ok in Hres as (lst & Hlst & Hres).
  apply bind_Ok in Hres as (ss & Hwalk & Hres).
  apply index_list_shape in Hlst as [Hcnt Hfull].
  apply walk_resolves in Hwalk as (Hlen & Hone & Hok); [|simpl; lia].
  assert (Hss : length ss = length (shape self)).
  { unfold ndim in *. destruct (existsb is_ellipsis lst).
    - specialize (Hone eq_refl). lia.
    - specialize (Hfull eq_refl). lia. }
  exists ss. unfold unzip_roi in Hres.
  destruct ss as [|bs ss']; [discriminate|]. inversion Hres; subst.
  repeat split; auto.
  specialize (Hok ltac:(constructor)). unfold dims_ok in Hok.
  rewrite Hss in Hok. now rewrite firstn_all in Hok.
Qed.

(** ** The ROI invariant of resolved indices *)

Lemma Forall2_dim_ok_lookup (sh : list Z) (ss : list (option Z * Z)) (d : nat) (sz : Z) :
  Forall2 dim_ok sh ss -> sh !! d = Some sz ->
  exists bs, ss !! d = Some bs /\ dim_ok sz bs.
Proof.
  intros Hall Hsz.
  destruct (Forall2_lookup_l _ _ _ _ _ Hall Hsz) as (bs & Hbs & Hok). eauto.
Qed.

(** C3, as the code has it: a successful resolution returns one offset and
    one extent per dimension; a dimension is either empty (offset [None],
    extent 0) or has an integer offset that ends inside the dimension and is
    non-negative unless it is exactly minus the size.  A non-empty slice
    result has a non-negative offset and ends inside the dimension, and a
    scalar other than minus the size that is accepted has a non-negative
    offset. *)
Theorem index_to_roi_invariant :
  (forall (self : Dataset) (idx : index) roi_begin roi_shape,
      index_to_roi self idx = Ok (roi_begin, roi_shape) ->
      length roi_begin = length (shape self)
      /\ length roi_shape = length (shape self)
      /\ forall d sz, shape self !! d = Some sz ->
           (roi_begin !! d = Some None /\ roi_shape !! d = Some 0)
           \/ exists b n, roi_begin !! d = Some (Some b)
                          /\ roi_shape !! d = Some n
                          /\ b + n <= sz /\ (b <> - sz -> 0 <= b))
  /\ (forall (s : slice) (size b n : Z),
        slice_to_begin_shape s size = Ok (Some b, n) ->
        0 <= b /\ b + n <= size)
  /\ (forall (i size : Z) (ob : option Z) (n : Z),
        int_to_begin_shape i size = Ok (ob, n) -> i <> - size ->
        exists b, ob = Some b /\ 0 <= b /\ b + n <= size).
Proof.
  split; [|split].
  - intros self idx roi_begin roi_shape Hres.
    apply index_to_roi_dims in Hres as (ss & -> & -> & Hlen & Hall).
    rewrite !length_map. repeat split; auto.
    intros d sz Hsz.
    destruct (Forall2_dim_ok_lookup _ _ _ _ Hall Hsz) as ([ob n] & Hbs & Hok).
    rewrite !list_lookup_fmap, Hbs. simpl.
    destruct ob as [b|]; simpl in Hok.
    + right. exists b, n. repeat split; tauto.
    + left. subst n. auto.
  - intros s size b n Hres. apply slice_nonempty_bounds in Hres. lia.
  - intros i size ob n Hres Hi.
    apply int_accepted_bounds in Hres as (-> & b & -> & Hb & Hnn & _).
    exists b. auto.
Qed.

Lemma index_to_roi_invariant_witness :
  let self := dataset_of_shape [10; 20] in
  let idx := IdxTuple [INum (NInt (-3)); ISlice (Slice (Some 25) None None)] in
  index_to_roi self idx = Ok ([Some 7; None], [1; 0])
  /\ length [Some 7; None] = length (shape self)
  /\ (0 <= 2 /\ 2 + 3 <= 20)
  /\ (exists b, Some 7 = Some b /\ 0 <= b /\ b + 1 <= 10).
Proof.
  destruct index_to_roi_invariant as (Hroi & Hslice & Hint).
  split; [reflexivity|]. split; [|split].
  - exact (proj1 (Hroi (dataset_of_shape [10; 20])
                    (IdxTuple [INum (NInt (-3)); ISlice (Slice (Some 25) None None)])
                    [Some 7; None] [1; 0] eq_refl)).
  - exact (Hslice (Slice (Some 2) (Some 5) None) 20 2 3 eq_refl).
  - apply (Hint (-3) 10 (Some 7) 1 eq_refl). lia.
Defined.

(** C3 as stated fails: a slice that selects nothing resolves to the
    offset [None], which is not a non-negative integer. *)
Lemma index_to_roi_in_bounds_counterexample :
  ~ (forall (self : Dataset) (idx : index) roi_begin roi_shape,
       index_to_roi self idx = Ok (roi_begin, roi_shape) ->
       roi_in_bounds (shape self) roi_begin roi_shape).
Proof.
  intros Hclaim.
  specialize (Hclaim (dataset_of_shape [3])
                (IdxBare (ISlice (Slice (Some 5) None None))) [None] [0] eq_refl).
  destruct (Hclaim 0%nat 3 eq_refl) as (b & n & Hb & _).
  discriminate Hb.
Qed.

(** ** Slices outside the dimension, scalars outside the range *)

Lemma slice_outsideb_spec (s : slice) (size : Z) :
  1 <= size -> slice_outsideb s size = true <-> slice_outside s size.
Proof.
  intros Hsize. unfold slice_outsideb, slice_outside.
  rewrite !orb_true_iff, !Z.leb_le. split.
  - intros Hends k Hk. lia.
  - intros Hout.
    destruct (Z_lt_le_dec (slice_lo s size) (slice_hi s size)) as [Hlt|]; [|lia].
    destruct (Z_lt_le_dec 0 (slice_hi s size)) as [Hpos|]; [|lia].
    destruct (Z_lt_le_dec (slice_lo s size) size) as [Hin|]; [|lia].
    exfalso. apply (Hout (Z.max (slice_lo s size) 0)); lia.
Qed.

(** Negative bounds inside the range select from the end. *)
Example slice_from_end :
  slice_to_begin_shape (Slice (Some (-2)) (Some (-1)) None) 5 = Ok (Some 3, 1)
  /\ slice_outsideb (Slice (Some (-2)) (Some (-1)) None) 5 = false.
Proof. split; reflexivity. Qed.

Lemma slice_outside_empty (s : slice) (size : Z) :
  step_supported s = true -> slice_outside s size ->
  slice_to_begin_shape s size = Ok (None, 0).
Proof.
  unfold slice_outside, slice_lo, slice_hi, from_end, slice_to_begin_shape.
  intros -> Hout. simpl.
  destruct (start s) as [st|], (stop s) as [sp|]; zcases; try reflexivity;
    exfalso;
    match goal with
    | Hn : 1 <= ?sh |- _ =>
        match sh with
        | ?e - ?b => apply (Hout b); lia
        end
    end.
Qed.

(** A bare slice or scalar on a one-dimensional dataset resolves through
    the per-dimension function alone. *)
Lemma index_to_roi_bare_slice (size : Z) (s : slice) :
  index_to_roi (dataset_of_shape [size]) (IdxBare (ISlice s))
  = (bs ← slice_to_begin_shape s size; Ok ([bs.1], [bs.2])).
Proof.
  cbv -[slice_to_begin_shape].
  destruct (slice_to_begin_shape s size) as [[ob n]|e]; reflexivity.
Qed.

Lemma index_to_roi_bare_int (size i : Z) :
  index_to_roi (dataset_of_shape [size]) (IdxBare (INum (NInt i)))
  = (bs ← int_to_begin_shape i size; Ok ([bs.1], [bs.2])).
Proof.
  cbv -[int_to_begin_shape].
  destruct (int_to_begin_shape i size) as [[ob n]|e]; reflexivity.
Qed.

(** A start below [- size] or from [size] on gives the empty pair. *)
Lemma slice_start_out_of_range (s : slice) (size a : Z) :
  step_supported s = true -> start s = Some a -> a < - size \/ size <= a ->
  slice_to_begin_shape s size = Ok (None, 0).
Proof.
  unfold slice_to_begin_shape. intros -> -> Ha. simpl.
  destruct (stop s); zcases; (reflexivity || lia).
Qed.

(** A bare number on a one-dimensional dataset: [int()] first, then the
    per-dimension function. *)
Lemma index_to_roi_bare_num (size : Z) (n : number) :
  index_to_roi (dataset_of_shape [size]) (IdxBare (INum n))
  = (i ← py_int n; bs ← int_to_begin_shape i size; Ok ([bs.1], [bs.2])).
Proof.
  cbv -[int_to_begin_shape py_int].
  destruct (py_int n) as [i|e]; [|reflexivity].
  destruct (int_to_begin_shape i size) as [[ob k]|e]; reflexivity.
Qed.

(** C4, as the code has it: on a dimension of size at least 1, a slice
    with step [None] or 1 never raises, and it resolves to the empty pair
    when it lies outside the dimension or when its start is below [- size]
    or from [size] on.  A scalar index of any numeric type is converted by
    [int()] first: it resolves exactly when [int()] succeeds with a value in
    [- size, size), and it raises the out-of-range error whenever that value
    is below [- size] or from [size] on. *)
Theorem outside_slice_empty_scalar_raises (size : Z) :
  1 <= size ->
  (forall s : slice, step_supported s = true ->
      is_ok (slice_to_begin_shape s size) = true
      /\ (slice_outside s size
          \/ (exists a, start s = Some a /\ (a < - size \/ size <= a)) ->
          slice_to_begin_shape s size = Ok (None, 0)
          /\ index_to_roi (dataset_of_shape [size]) (IdxBare (ISlice s))
             = Ok ([None], [0])))
  /\ (forall i : Z, i < - size \/ size <= i ->
        int_to_begin_shape i size = Raise (IndexOutOfRange i size)
        /\ forall n : number, py_int n = Ok i ->
             index_to_roi (dataset_of_shape [size]) (IdxBare (INum n))
             = Raise (IndexOutOfRange i size))
  /\ (forall n : number,
        is_ok (index_to_roi (dataset_of_shape [size]) (IdxBare (INum n))) = true
        <-> exists i, py_int n = Ok i /\ - size <= i < size).
Proof.
  intros Hsize. split; [|split].
  - intros s Hstep. split.
    + destruct (slice_to_begin_shape s size) as [bs|e] eqn:Hres; [reflexivity|].
      apply slice_raises_only_step in Hres as [_ Hres]. congruence.
    + intros Hout.
      assert (Hempty : slice_to_begin_shape s size = Ok (None, 0)).
      { destruct Hout as [Hout | (a & Hstart & Ha)].
        - now apply slice_outside_empty.
        - now apply (slice_start_out_of_range s size a). }
      split; [exact Hempty|].
      rewrite index_to_roi_bare_slice, Hempty. reflexivity.
  - intros i Hi. pose proof (int_to_begin_shape_outside i size Hi) as Hraise.
    split; [exact Hraise|].
    intros n Hn. rewrite index_to_roi_bare_num, Hn. simpl.
    rewrite Hraise. reflexivity.
  - intros n. rewrite index_to_roi_bare_num.
    destruct (py_int n) as [i|e]; simpl.
    + destruct (Z_lt_le_dec i (- size)) as [Hlow|Hlow];
        [|destruct (Z_lt_le_dec i size) as [Hhigh|Hhigh]].
      * rewrite int_to_begin_shape_outside by lia. simpl.
        split; [discriminate|]. intros (i' & Hi' & Hrange).
        inversion Hi'; subst. lia.
      * assert (Hok : is_ok (int_to_begin_shape i size) = true).
        { destruct (Z_lt_le_dec i 0) as [Hneg|Hpos];
            [destruct (Z.eq_dec i (- size)) as [->|Hne]|].
          - now rewrite int_to_begin_shape_minus_size.
          - now rewrite int_to_begin_shape_neg by lia.
          - now rewrite int_to_begin_shape_nonneg by lia. }
        destruct (int_to_begin_shape i size) as [[ob k]|e]; [|discriminate Hok].
        simpl. split; [|reflexivity].
        intros _. exists i. split; [reflexivity | lia].
      * rewrite int_to_begin_shape_outside by lia. simpl.
        split; [discriminate|]. intros (i' & Hi' & Hrange).
        inversion Hi'; subst. lia.
    + split; [discriminate|]. intros (i' & Hi' & _). discriminate.
Qed.

Lemma outside_slice_empty_scalar_raises_witness :
  (slice_to_begin_shape (Slice (Some 7) (Some 9) None) 5 = Ok (None, 0)
   /\ index_to_roi (dataset_of_shape [5])
        (IdxBare (ISlice (Slice (Some 7) (Some 9) None))) = Ok ([None], [0]))
  /\ int_to_begin_shape (-6) 5 = Raise (IndexOutOfRange (-6) 5)
  /\ index_to_roi (dataset_of_shape [5])
       (IdxBare (INum (NFloat (S754_finite true 13 (-1)))))
     = Raise (IndexOutOfRange (-6) 5).
Proof.
  assert (H5 : 1 <= 5) by lia.
  destruct (outside_slice_empty_scalar_raises 5 H5) as (Hslice & Hint & _).
  assert (Hlow : -6 < - 5 \/ 5 <= -6) by lia.
  split; [|split].
  - apply (Hslice (Slice (Some 7) (Some 9) None) eq_refl).
    left. intros k. unfold slice_lo, slice_hi, from_end. simpl. lia.
  - exact (proj1 (Hint (-6) Hlow)).
  - exact (proj2 (Hint (-6) Hlow) (NFloat (S754_finite true 13 (-1))) eq_refl).
Defined.

(** C4 as stated fails twice: a slice outside the dimension with a step
    other than 1 raises, and the scalar -5.5, which lies outside [-5, 5), is
    truncated to -5 by [int()] and resolves on a dimension of size 5. *)
Lemma outside_slice_with_step_counterexample :
  slice_outside (Slice (Some 7) (Some 9) (Some 2)) 5
  /\ slice_to_begin_shape (Slice (Some 7) (Some 9) (Some 2)) 5
     = Raise NontrivialSteps
  /\ index_to_roi (dataset_of_shape [5])
       (IdxBare (ISlice (Slice (Some 7) (Some 9) (Some 2))))
     = Raise NontrivialSteps
  /\ py_int (NFloat (S754_finite true 11 (-1))) = Ok (-5)
  /\ index_to_roi (dataset_of_shape [5])
       (IdxBare (INum (NFloat (S754_finite true 11 (-1)))))
     = Ok ([Some (-5)], [1]).
Proof.
  split; [|repeat split; reflexivity].
  intros k. unfold slice_lo, slice_hi, from_end. simpl. lia.
Qed.

(** ** Negative scalar indices *)

(** For [- size < i < 0] the offset is the one of [size + i]. *)
Lemma int_to_begin_shape_negative_normalised (i size : Z) :
  - size < i < 0 ->
  int_to_begin_shape i size = int_to_begin_shape (size + i) size.
Proof.
  intros Hi. rewrite int_to_begin_shape_neg by lia.
  rewrite int_to_begin_shape_nonneg by lia. f_equal. f_equal. f_equal. lia.
Qed.

(** C5 fails at [i = - size]: the index is accepted and returned as the
    offset unchanged, while [size + i = 0] resolves to offset 0. *)
Theorem int_to_begin_shape_minus_size_not_normalised (size : Z) :
  1 <= size ->
  int_to_begin_shape (- size) size = Ok (Some (- size), 1)
  /\ int_to_begin_shape (size + - size) size = Ok (Some 0, 1)
  /\ int_to_begin_shape (- size) size <> int_to_begin_shape (size + - size) size.
Proof.
  intros Hsize.
  rewrite int_to_begin_shape_minus_size by lia.
  replace (size + - size) with 0 by lia.
  rewrite int_to_begin_shape_nonneg by lia.
  repeat split. intros Heq. inversion Heq. lia.
Qed.

Lemma int_to_begin_shape_minus_size_not_normalised_witness :
  int_to_begin_shape (-1) 1 = Ok (Some (-1), 1)
  /\ int_to_begin_shape (1 + -1) 1 = Ok (Some 0, 1)
  /\ int_to_begin_shape (-1) 1 <> int_to_begin_shape (1 + -1) 1.
Proof.
  apply (int_to_begin_shape_minus_size_not_normalised 1). lia.
Defined.

(** ** Ellipsis expansion *)

Section ellipsis_facts.
Variable self : Dataset.

Lemma full_pairs_S (from k : nat) (sz : Z) :
  shape self !! from = Some sz ->
  full_pairs self from (S k) = (Some 0, sz) :: full_pairs self (S from) k.
Proof.
  intros Hsz. unfold full_pairs. now rewrite (drop_S _ _ _ Hsz).
Qed.

Lemma full_pairs_0 (from : nat) : full_pairs self from 0 = [].
Proof. reflexivity. Qed.

(** Entries other than the ellipsis ignore [len_index] and
    [found_ellipsis]. *)
Lemma walk_no_ellipsis_indep (len1 len2 : Z) (fe1 fe2 : bool)
    (items : list index_item) :
  Forall not_ellipsis items ->
  forall ss, walk self len1 items ss fe1 = walk self len2 items ss fe2.
Proof.
  induction 1 as [|item rest Hitem _ IH]; intros ss; [reflexivity|].
  destruct item as [n|s| |o]; simpl; try discriminate Hitem; try reflexivity.
  - destruct (py_int n); simpl; [|reflexivity].
    destruct (shape_at self (length ss)); simpl; [|reflexivity].
    destruct (int_to_begin_shape _ _); simpl; [apply IH | reflexivity].
  - destruct (shape_at self (length ss)); simpl; [|reflexivity].
    destruct (slice_to_begin_shape _ _); simpl; [apply IH | reflexivity].
Qed.

Lemma walk_app (len_index : Z) (fe : bool) (pre rest : list index_item) :
  Forall not_ellipsis pre ->
  forall ss,
    walk self len_index (pre ++ rest) ss fe
    = (ss' ← walk self len_index pre ss fe; walk self len_index rest ss' fe).
Proof.
  induction 1 as [|item pre Hitem _ IH]; intros ss; [reflexivity|].
  destruct item as [n|s| |o]; simpl; try discriminate Hitem; try reflexivity.
  - destruct (py_int n); simpl; [|reflexivity].
    destruct (shape_at self (length ss)); simpl; [|reflexivity].
    destruct (int_to_begin_shape _ _); simpl; [apply IH | reflexivity].
  - destruct (shape_at self (length ss)); simpl; [|reflexivity].
    destruct (slice_to_begin_shape _ _); simpl; [apply IH | reflexivity].
Qed.

Lemma walk_no_ellipsis_length (len_index : Z) (fe : bool)
    (items : list index_item) (ss out : list (option Z * Z)) :
  Forall not_ellipsis items ->
  walk self len_index items ss fe = Ok out ->
  length out = (length ss + length items)%nat.
Proof.
  intros Hne Hres.
  rewrite (walk_no_ellipsis_indep _ len_index _ true _ Hne) in Hres.
  now apply walk_after_ellipsis in Hres.
Qed.

Hypothesis shape_positive : Forall (fun sz => 1 <= sz) (shape self).

Lemma full_slice_whole (sz : Z) :
  1 <= sz -> slice_to_begin_shape full_slice sz = Ok (Some 0, sz).
Proof.
  intros Hsz. unfold slice_to_begin_shape. simpl.
  replace (sz - 0) with sz by lia.
  destruct (Z.ltb_spec sz 1); [lia | reflexivity].
Qed.

(** [k] full slices resolve the next [k] dimensions in full. *)
Lemma walk_full_slices (len_index : Z) (fe : bool) (k : nat) :
  forall ss,
    (length ss + k <= length (shape self))%nat ->
    walk self len_index (replicate k (ISlice full_slice)) ss fe
    = Ok (ss ++ full_pairs self (length ss) k).
Proof.
  induction k as [|k IH]; intros ss Hlen.
  - simpl. now rewrite full_pairs_0, app_nil_r.
  - destruct (lookup_lt_is_Some_2 (shape self) (length ss)) as [sz Hsz]; [lia|].
    cbn [replicate walk]. unfold shape_at. rewrite Hsz. simpl.
    rewrite full_slice_whole
      by (exact (proj1 (Forall_lookup _ _) shape_positive _ _ Hsz)).
    simpl. rewrite IH by (rewrite length_app; simpl; lia).
    rewrite length_app, Nat.add_1_r, (full_pairs_S _ _ _ Hsz).
    now rewrite <- app_assoc.
Qed.

(** The ellipsis loop appends the same pairs. *)
Lemma fill_ellipsis_full (len_index d : Z) (fuel : nat) :
  forall ss,
    Z.of_nat fuel = ndim self - (len_index - d - 1) - Z.of_nat (length ss) ->
    (length ss + fuel <= length (shape self))%nat ->
    fill_ellipsis self len_index d fuel ss
    = Ok (ss ++ full_pairs self (length ss) fuel).
Proof.
  induction fuel as [|fuel IH]; intros ss Hfuel Hlen; simpl.
  - destruct (Z.ltb_spec (Z.of_nat (length ss) + (len_index - d - 1)) (ndim self));
      [lia|]. now rewrite full_pairs_0, app_nil_r.
  - destruct (Z.ltb_spec (Z.of_nat (length ss) + (len_index - d - 1)) (ndim self));
      [|lia].
    destruct (lookup_lt_is_Some_2 (shape self) (length ss)) as [sz Hsz]; [lia|].
    unfold shape_at. rewrite Hsz. simpl.
    rewrite IH by (rewrite length_app; simpl; lia).
    rewrite length_app, Nat.add_1_r, (full_pairs_S _ _ _ Hsz).
    now rewrite <- app_assoc.
Qed.

Lemma index_list_with_ellipsis (pre post : list index_item) :
  Forall not_ellipsis pre -> Forall not_ellipsis post ->
  (length pre + length post <= length (shape self))%nat ->
  index_list self (IdxTuple (pre ++ IEllipsis :: post))
  = Ok (pre ++ IEllipsis :: post).
Proof.
  intros Hpre Hpost Hlen. unfold index_list. simpl.
  rewrite filter_app, filter_cons_False
    by (unfold not_ellipsis; simpl; discriminate).
  rewrite !filter_not_ellipsis_id by assumption.
  rewrite existsb_app. simpl. rewrite orb_true_r, andb_false_r.
  unfold ndim. rewrite length_app.
  destruct (Z.ltb_spec (Z.of_nat (length (shape self)))
              (Z.of_nat (length pre + length post))); [lia | reflexivity].
Qed.

Lemma index_list_explicit (l : list index_item) :
  Forall not_ellipsis l -> length l = length (shape self) ->
  index_list self (IdxTuple l) = Ok l.
Proof.
  intros Hl Hlen. unfold index_list. simpl.
  rewrite filter_not_ellipsis_id by assumption.
  unfold ndim. rewrite Hlen.
  rewrite Z.ltb_irrefl. reflexivity.
Qed.

Lemma index_list_short (l : list index_item) :
  Forall not_ellipsis l -> (length l < length (shape self))%nat ->
  index_list self (IdxTuple l) = Ok (l ++ [IEllipsis]).
Proof.
  intros Hl Hlen. unfold index_list. simpl.
  rewrite filter_not_ellipsis_id by assumption.
  apply existsb_not_ellipsis in Hl. rewrite Hl. unfold ndim.
  destruct (Z.ltb_spec (Z.of_nat (length (shape self))) (Z.of_nat (length l)));
    [lia|].
  destruct (Z.ltb_spec (Z.of_nat (length l)) (Z.of_nat (length (shape self))));
    [reflexivity | lia].
Qed.

Lemma ellipsis_as_full_slices (pre post : list index_item) :
  Forall not_ellipsis pre -> Forall not_ellipsis post ->
  (length pre + length post <= length (shape self))%nat ->
  index_to_roi self (IdxTuple (pre ++ IEllipsis :: post))
  = index_to_roi self
      (IdxTuple (pre ++ replicate (length (shape self) - length pre - length post)
                          (ISlice full_slice) ++ post)).
Proof.
  intros Hpre Hpost Hlen.
  set (k := (length (shape self) - length pre - length post)%nat).
  assert (Hfull : Forall not_ellipsis (replicate k (ISlice full_slice))).
  { apply Forall_replicate. reflexivity. }
  unfold index_to_roi.
  rewrite index_list_with_ellipsis by assumption.
  rewrite index_list_explicit;
    [|repeat apply Forall_app_2; assumption
     |rewrite !length_app, length_replicate; subst k; lia].
  simpl. f_equal.
  rewrite !walk_app by assumption.
  rewrite (walk_no_ellipsis_indep _
             (Z.of_nat (length (pre ++ replicate k (ISlice full_slice) ++ post)))
             _ false _ Hpre).
  destruct (walk self _ pre [] false) as [ss|e] eqn:Hwalk; simpl; [|reflexivity].
  apply walk_no_ellipsis_length in Hwalk; [|assumption]. simpl in Hwalk.
  rewrite (walk_app _ _ _ _ Hfull).
  rewrite walk_full_slices by (subst k; lia). simpl.
  rewrite length_app. cbn [length].
  replace (Z.to_nat _) with k by (unfold ndim; subst k; lia).
  rewrite fill_ellipsis_full.
  - simpl. apply walk_no_ellipsis_indep. assumption.
  - unfold ndim. subst k. lia.
  - subst k. lia.
Qed.

Lemma short_index_as_ellipsis (l : list index_item) :
  Forall not_ellipsis l -> (length l < length (shape self))%nat ->
  index_to_roi self (IdxTuple l) = index_to_roi self (IdxTuple (l ++ [IEllipsis])).
Proof.
  intros Hl Hlen. unfold index_to_roi.
  rewrite index_list_short by assumption.
  rewrite (index_list_with_ellipsis l []);
    [reflexivity | assumption | constructor | simpl; lia].
Qed.
End ellipsis_facts.

(** C6: on a dataset whose dimensions all have size at least 1, an index
    tuple with one ellipsis, at any position, resolves exactly as the tuple
    in which the ellipsis is replaced by one full slice per remaining
    dimension; and a tuple without ellipsis that is shorter than [ndim]
    resolves exactly as the tuple with an ellipsis appended. *)
Theorem ellipsis_expansion_equivalent (self : Dataset) :
  (forall pre post : list index_item,
      Forall (fun sz => 1 <= sz) (shape self) ->
      Forall not_ellipsis pre -> Forall not_ellipsis post ->
      (length pre + length post <= length (shape self))%nat ->
      index_to_roi self (IdxTuple (pre ++ IEllipsis :: post))
      = index_to_roi self
          (IdxTuple (pre ++ replicate (length (shape self) - length pre - length post)
                              (ISlice full_slice) ++ post)))
  /\ (forall l : list index_item,
        Forall not_ellipsis l -> (length l < length (shape self))%nat ->
        index_to_roi self (IdxTuple l)
        = index_to_roi self (IdxTuple (l ++ [IEllipsis]))).
Proof.
  split.
  - intros pre post Hshape Hpre Hpost Hlen. now apply ellipsis_as_full_slices.
  - intros l Hl Hshort. now apply short_index_as_ellipsis.
Qed.

Lemma ellipsis_expansion_equivalent_witness :
  let self := dataset_of_shape [3; 4; 5] in
  index_to_roi self (IdxTuple [INum (NInt 1); IEllipsis; INum (NInt 2)])
  = index_to_roi self
      (IdxTuple [INum (NInt 1); ISlice full_slice; INum (NInt 2)])
  /\ index_to_roi self (IdxTuple [INum (NInt 1)])
     = index_to_roi self (IdxTuple [INum (NInt 1); IEllipsis])
  /\ index_to_roi self (IdxTuple [INum (NInt 1); IEllipsis; INum (NInt 2)])
     = Ok ([Some 1; Some 0; Some 2], [1; 4; 1]).
Proof.
  assert (Hshape : Forall (fun sz => 1 <= sz) (shape (dataset_of_shape [3; 4; 5]))).
  { repeat constructor; lia. }
  assert (Hpre : Forall not_ellipsis [INum (NInt 1)]) by (repeat constructor).
  assert (Hpost : Forall not_ellipsis [INum (NInt 2)]) by (repeat constructor).
  assert (Hlen : Nat.le (length [INum (NInt 1)] + length [INum (NInt 2)])
                         (length (shape (dataset_of_shape [3; 4; 5]))))
    by (simpl; lia).
  destruct (ellipsis_expansion_equivalent (dataset_of_shape [3; 4; 5]))
    as [Hfull Hshort].
  split; [exact (Hfull [INum (NInt 1)] [INum (NInt 2)] Hshape Hpre Hpost Hlen)|].
  split; [|reflexivity].
  apply (Hshort [INum (NInt 1)] Hpre). simpl. lia.
Defined.

(** ** Numbers as index entries *)

Section number_facts.
Variable self : Dataset.







End number_facts.








(** ** Squeezing in [__getitem__] *)

Lemma walk_numbers_unit (self : Dataset) (len_index : Z) (items : list index_item) :
  forallb is_number items = true ->
  forall ss fe out,
    walk self len_index items ss fe = Ok out ->
    Forall (fun bs => bs.2 = 1) ss -> Forall (fun bs => bs.2 = 1) out.
Proof.
  induction items as [|item rest IH]; intros Hnum ss fe out; simpl.
  - intros Hres; inversion Hres; subst. auto.
  - simpl in Hnum. apply andb_true_iff in Hnum as [Hitem Hrest].
    destruct item as [n|s| |o]; try discriminate Hitem.
    intros Hres Hss.
    apply bind_Ok in Hres as (i & Hi & Hres).
    apply bind_Ok in Hres as (sz & Hsz & Hres).
    apply bind_Ok in Hres as ([ob k] & Hbs & Hres).
    apply (IH Hrest _ _ _ Hres).
    apply Forall_app_2; [exact Hss|].
    apply int_accepted_bounds in Hbs as (-> & _). repeat constructor.
Qed.

Lemma forallb_number_not_ellipsis (l : list index_item) :
  forallb is_number l = true -> existsb is_ellipsis l = false.
Proof.
  induction l as [|item rest IH]; simpl; [reflexivity|].
  intros Hnum. apply andb_true_iff in Hnum as [Hitem Hrest].
  rewrite (IH Hrest). destruct item; try discriminate; reflexivity.
Qed.

(** Scalars in every dimension resolve to extent 1 everywhere. *)
Lemma index_to_roi_scalars_unit (self : Dataset) (l : list index_item)
    (roi_begin : list (option Z)) (shp : list Z) :
  index_to_roi self (IdxTuple l) = Ok (roi_begin, shp) ->
  Z.of_nat (length l) = ndim self -> forallb is_number l = true ->
  Forall (fun n => n = 1) shp.
Proof.
  unfold index_to_roi. intros Hres Hlen Hnum.
  apply bind_Ok in Hres as (lst & Hlst & Hres).
  apply bind_Ok in Hres as (ss & Hwalk & Hres).
  assert (lst = l) as ->.
  { unfold index_list in Hlst. simpl in Hlst.
    destruct (_ <? _); [discriminate|].
    rewrite Hlen, Z.ltb_irrefl in Hlst. simpl in Hlst. congruence. }
  apply walk_numbers_unit in Hwalk; [|assumption|constructor].
  unfold unzip_roi in Hres. destruct ss; [discriminate|].
  inversion Hres; subst.
  change (Forall (fun n => n = 1) (snd <$> (p :: ss))).
  apply Forall_fmap. exact Hwalk.
Qed.

Lemma no_zero_in_units (shp : list Z) :
  Forall (fun n => n = 1) shp -> existsb (Z.eqb 0) shp = false.
Proof.
  induction 1 as [|n rest -> _ IH]; [reflexivity|]. simpl. exact IH.
Qed.

Section getitem_facts.
Context {V : Type}.
Variable np_empty : list Z -> np_dtype -> list Z -> V.
Variable read_subarray :
  dset_impl -> ndarray V -> list (option Z) -> result (list Z -> V).

Lemma getitem_tuple_scalars (self : Dataset) (l : list index_item)
    (roi_begin : list (option Z)) (shp : list Z) (filled : list Z -> V) :
  index_to_roi self (IdxTuple l) = Ok (roi_begin, shp) ->
  read_subarray (_impl self) (NdArray shp (np_empty shp (dtype self))) roi_begin
  = Ok filled ->
  Z.of_nat (length l) = ndim self -> forallb is_number l = true ->
  __getitem__ np_empty read_subarray self (IdxTuple l)
  = Ok (Element (filled (replicate (length shp) 0))).
Proof.
  intros Hroi Hread Hlen Hnum. unfold __getitem__. rewrite Hroi. simpl.
  rewrite (no_zero_in_units shp)
    by (eapply index_to_roi_scalars_unit; eauto).
  rewrite Hread. simpl. rewrite Hlen, Z.eqb_refl, Hnum. reflexivity.
Qed.

Lemma getitem_tuple_block (self : Dataset) (l : list index_item)
    (roi_begin : list (option Z)) (shp : list Z) (filled : list Z -> V) :
  index_to_roi self (IdxTuple l) = Ok (roi_begin, shp) ->
  read_subarray (_impl self) (NdArray shp (np_empty shp (dtype self))) roi_begin
  = Ok filled ->
  Z.of_nat (length l) <> ndim self \/ forallb is_number l = false ->
  __getitem__ np_empty read_subarray self (IdxTuple l)
  = Ok (Block (block_of np_empty self shp filled)).
Proof.
  intros Hroi Hread Hcond. unfold __getitem__, block_of. rewrite Hroi. simpl.
  destruct (existsb (Z.eqb 0) shp); [reflexivity|].
  rewrite Hread. simpl.
  destruct Hcond as [Hlen | Hnum].
  - destruct (Z.eqb_spec (Z.of_nat (length l)) (ndim self)); [contradiction|].
    reflexivity.
  - rewrite Hnum, andb_false_r. reflexivity.
Qed.

Lemma getitem_bare_block (self : Dataset) (i : index_item)
    (roi_begin : list (option Z)) (shp : list Z) (filled : list Z -> V) :
  index_to_roi self (IdxBare i) = Ok (roi_begin, shp) ->
  read_subarray (_impl self) (NdArray shp (np_empty shp (dtype self))) roi_begin
  = Ok filled ->
  __getitem__ np_empty read_subarray self (IdxBare i)
  = Ok (Block (block_of np_empty self shp filled)).
Proof.
  intros Hroi Hread. unfold __getitem__, block_of. rewrite Hroi. simpl.
  destruct (existsb (Z.eqb 0) shp); [reflexivity|].
  rewrite Hread. simpl.
  destruct i as [n|s| |o]; try reflexivity.
  unfold index_to_roi, index_list in Hroi. simpl in Hroi. discriminate.
Qed.

(** C9, as the code has it: when the engine's read succeeds, an index
    tuple with exactly [ndim] entries, all numbers, returns the single
    element at position (0, ..., 0) of the block read; a tuple with another
    number of entries or with an entry that is not a number returns the
    whole block of the resolved shape; and an index that is not a tuple,
    a bare number included, always returns the block. *)
Theorem getitem_squeezes_scalar_tuples (self : Dataset) (idx : index)
    (roi_begin : list (option Z)) (shp : list Z) (filled : list Z -> V) :
  index_to_roi self idx = Ok (roi_begin, shp) ->
  read_subarray (_impl self) (NdArray shp (np_empty shp (dtype self))) roi_begin
  = Ok filled ->
  match idx with
  | IdxTuple l =>
      if (Z.of_nat (length l) =? ndim self) && forallb is_number l
      then __getitem__ np_empty read_subarray self idx
           = Ok (Element (filled (replicate (length shp) 0)))
           /\ Forall (fun n => n = 1) shp
      else __getitem__ np_empty read_subarray self idx
           = Ok (Block (block_of np_empty self shp filled))
  | IdxBare _ =>
      __getitem__ np_empty read_subarray self idx
      = Ok (Block (block_of np_empty self shp filled))
  end.
Proof.
  intros Hroi Hread. destruct idx as [l|i].
  - destruct (Z.eqb_spec (Z.of_nat (length l)) (ndim self)) as [Hlen|Hlen];
      [destruct (forallb is_number l) eqn:Hnum|]; simpl.
    + split; [now apply (getitem_tuple_scalars self l roi_begin)|].
      eapply index_to_roi_scalars_unit; eauto.
    + apply (getitem_tuple_block self l roi_begin); auto.
    + apply (getitem_tuple_block self l roi_begin); auto.
  - now apply (getitem_bare_block self i roi_begin).
Qed.
End getitem_facts.

Lemma getitem_squeezes_scalar_tuples_witness :
  let self := dataset_of_shape [10; 20] in
  __getitem__ example_empty example_read self
    (IdxTuple [INum (NInt 5); INum (NInt 3)]) = Ok (Element 42)
  /\ __getitem__ example_empty example_read self
       (IdxTuple [INum (NInt 5); ISlice (Slice None None None)])
     = Ok (Block (NdArray [1; 20] (fun _ => 42))).
Proof.
  split.
  - exact (proj1 (getitem_squeezes_scalar_tuples example_empty example_read
                    (dataset_of_shape [10; 20])
                    (IdxTuple [INum (NInt 5); INum (NInt 3)])
                    [Some 5; Some 3] [1; 1] (fun _ => 42) eq_refl eq_refl)).
  - exact (getitem_squeezes_scalar_tuples example_empty example_read
             (dataset_of_shape [10; 20])
             (IdxTuple [INum (NInt 5); ISlice (Slice None None None)])
             [Some 5; Some 0] [1; 20] (fun _ => 42) eq_refl eq_refl).
Defined.

(** C9 as stated fails for an index that is not a tuple: the bare scalar 5
    on a one-dimensional dataset is an index of [ndim] entries, all of them
    scalars, and the block of shape (1,) is returned, not its element. *)
Lemma getitem_bare_scalar_counterexample :
  let self := dataset_of_shape [10] in
  let idx := IdxBare (INum (NInt 5)) in
  Z.of_nat (length (index_entries idx)) = ndim self
  /\ forallb is_number (index_entries idx) = true
  /\ __getitem__ example_empty example_read self idx
     = Ok (Block (NdArray [1] (fun _ => 42)))
  /\ forall v, __getitem__ example_empty example_read self idx <> Ok (Element v).
Proof.
  repeat split. intros v Heq. discriminate Heq.
Qed.

(** * Properties of the compression metadata *)

(** ** Encoding then decoding *)

(** What the N5 encoder writes for the three supported algorithms. *)
Lemma to_n5_supported (compression_options : pydict) :
  _to_n5_compression_options "raw" compression_options
  = Ok (PDict [("type", PStr "raw")])
  /\ _to_n5_compression_options "gzip" compression_options
     = Ok (PDict [("type", PStr "gzip");
                  ("level", dict_get compression_options "level" (PInt 5))])
  /\ _to_n5_compression_options "bzip2" compression_options
     = Ok (PDict [("type", PStr "bzip2");
                  ("blockSize", dict_get compression_options "level" (PInt 5))]).
Proof. repeat split. Qed.

(** Raw and gzip are read back from an N5 sidecar document as written. *)
Lemma n5_raw_gzip_read_back (dtype_s : pyval) (shape chunks : list Z)
    (level : pyval) :
  n5_compression_options_of
    (PDict (n5_params dtype_s shape chunks (PDict [("type", PStr "raw")])))
  = Ok [("compression", PStr "raw")]
  /\ n5_compression_options_of
       (PDict (n5_params dtype_s shape chunks
                 (PDict [("type", PStr "gzip"); ("level", level)])))
     = Ok [("compression", PStr "gzip"); ("level", level)].
Proof. split; reflexivity. Qed.

(** When the [compressor] object itself is the document, the Zarr decoder
    returns what was encoded. *)
Lemma zarr_compressor_object_read_back (codec level shuffle : pyval) :
  zarr_compression_options_of PNone = Ok [("compression", PStr "raw")]
  /\ zarr_compression_options_of
       (PDict [("id", PStr "blosc"); ("cname", codec); ("clevel", level);
               ("shuffle", shuffle)])
     = Ok [("compression", PStr "blosc"); ("level", level);
           ("shuffle", shuffle); ("codec", codec)]
  /\ zarr_compression_options_of (PDict [("id", PStr "zlib"); ("level", level)])
     = Ok [("compression", PStr "zlib"); ("level", level)]
  /\ zarr_compression_options_of (PDict [("id", PStr "bzip2"); ("level", level)])
     = Ok [("compression", PStr "bzip2"); ("level", level)].
Proof. repeat split. Qed.

(** C1 fails on the code.  The N5 decoder indexes the string ['bzip2'] with
    the key ['compression'] and raises a [TypeError] on the document that
    creation with bzip2 writes; the Zarr decoder looks for the key ['id'] at
    the top of the [.zarray] document, where creation puts it under
    ['compressor'], and raises a [KeyError] for every algorithm.  Both
    happen on the files that [create_dataset] leaves in the in-memory file
    system. *)
Theorem compression_options_not_read_back :
  (forall (dtype_s : pyval) (shape chunks : list Z) (compression_options : pydict),
      exists compressor,
        _to_n5_compression_options "bzip2" compression_options = Ok compressor
        /\ n5_compression_options_of
             (PDict (n5_params dtype_s shape chunks compressor))
           = Raise NotSubscriptable)
  /\ (forall (dtype_s : pyval) (shape chunks : list Z)
             (fill_value compressor : pyval),
        zarr_compression_options_of
          (PDict (zarr_params dtype_s shape chunks fill_value compressor))
        = Raise (MissingKey "id"))
  /\ (let created :=
        create_dataset (fs := gmap string node) "ds" float32 [10; 20] [5; 5]
          false "bzip2" [("level", PInt 9)] PNone "a" ∅ in
      exists self, created.1 = Ok self
                   /\ compression_options self created.2 = Raise NotSubscriptable)
  /\ (let created :=
        create_dataset (fs := gmap string node) "ds" float32 [10; 20] [5; 5]
          true "zlib" [("level", PInt 9)] PNone "a" ∅ in
      exists self, created.1 = Ok self
                   /\ compression_options self created.2 = Raise (MissingKey "id")).
Proof.
  split; [|split; [|split]].
  - intros dtype_s shape chunks compression_options.
    eexists. split; reflexivity.
  - intros dtype_s shape chunks fill_value compressor.
    destruct dtype_s; reflexivity.
  - eexists. split; vm_compute; reflexivity.
  - eexists. split; vm_compute; reflexivity.
Qed.

(** ** The legacy N5 schema *)

(** Legacy documents naming raw or gzip decode to that algorithm, gzip with
    level 5, whatever else the document holds. *)
Lemma legacy_n5_raw_gzip (d : pydict) :
  (dict_lookup "compressionType" d = Some (PStr "raw") ->
   n5_compression_options_of (PDict d) = Ok [("compression", PStr "raw")])
  /\ (dict_lookup "compressionType" d = Some (PStr "gzip") ->
      n5_compression_options_of (PDict d)
      = Ok [("compression", PStr "gzip"); ("level", PInt 5)]).
Proof.
  split; intros Hd; unfold n5_compression_options_of; simpl;
    rewrite Hd; reflexivity.
Qed.

(** C2 fails on the code for bzip2: every legacy document whose
    ['compressionType'] is the string ['bzip2'] makes the decoder index that
    string with the key ['compression'], which raises a [TypeError]. *)
Theorem legacy_n5_bzip2_raises (d : pydict) :
  dict_lookup "compressionType" d = Some (PStr "bzip2") ->
  n5_compression_options_of (PDict d) = Raise NotSubscriptable
  /\ class_of NotSubscriptable = TypeError.
Proof.
  intros Hd. split; [|reflexivity].
  unfold n5_compression_options_of. simpl. rewrite Hd. reflexivity.
Qed.

Lemma legacy_n5_bzip2_raises_witness :
  n5_compression_options_of (PDict [("compressionType", PStr "bzip2")])
  = Raise NotSubscriptable.
Proof.
  exact (proj1 (legacy_n5_bzip2_raises [("compressionType", PStr "bzip2")] eq_refl)).
Defined.

(** * Properties of dataset creation *)

Lemma effective_compression_supported (is_zarr : bool) (compression : string) :
  str_in (effective_compression is_zarr compression)
    (if is_zarr then compressors_zarr else compressors_n5) = true.
Proof.
  unfold effective_compression.
  destruct is_zarr; cbn [andb negb];
    [destruct (str_in compression compressors_zarr) eqn:Hin
    |destruct (str_in compression compressors_n5) eqn:Hin]; cbn [andb negb];
    (exact Hin || reflexivity).
Qed.

Lemma effective_compression_default (is_zarr : bool) (compression : string) :
  str_in compression (if is_zarr then compressors_zarr else compressors_n5) = false ->
  effective_compression is_zarr compression
  = (if is_zarr then zarr_default_compressor else n5_default_compressor).
Proof.
  unfold effective_compression.
  destruct is_zarr; cbn [andb negb]; intros ->; reflexivity.
Qed.

Lemma effective_compression_idem (is_zarr : bool) (compression : string) :
  effective_compression is_zarr (effective_compression is_zarr compression)
  = effective_compression is_zarr compression.
Proof.
  pose proof (effective_compression_supported is_zarr compression) as Hin.
  unfold effective_compression at 1.
  destruct is_zarr; cbn [andb negb]; rewrite Hin; reflexivity.
Qed.

(** The encoders accept every supported name. *)
Lemma to_zarr_supported_ok (compression : string) (compression_options : pydict) :
  str_in compression compressors_zarr = true ->
  is_ok (_to_zarr_compression_options compression compression_options) = true.
Proof.
  unfold str_in, compressors_zarr, _to_zarr_compression_options. simpl.
  rewrite orb_false_r.
  destruct (String.eqb compression "blosc"); [reflexivity|].
  destruct (String.eqb compression "zlib"); [reflexivity|].
  destruct (String.eqb compression "bzip2"); [reflexivity|].
  destruct (String.eqb compression "raw"); [reflexivity | discriminate].
Qed.

Lemma to_n5_supported_ok (compression : string) (compression_options : pydict) :
  str_in compression compressors_n5 = true ->
  is_ok (_to_n5_compression_options compression compression_options) = true.
Proof.
  unfold str_in, compressors_n5, _to_n5_compression_options. simpl.
  rewrite orb_false_r.
  destruct (String.eqb compression "gzip"); [reflexivity|].
  destruct (String.eqb compression "bzip2"); [reflexivity|].
  destruct (String.eqb compression "raw"); [reflexivity | discriminate].
Qed.

Section creation_facts.
Context {fs : Type} `{OS fs}.

(** [create_dataset] uses the requested compression only through
    [effective_compression]. *)
Lemma create_dataset_effective (path : string) (dt : np_dtype)
    (shape chunks : list Z) (is_zarr : bool) (compression : string)
    (compression_options : pydict) (fill_value : pyval) (mode : string) (st : fs) :
  create_dataset path dt shape chunks is_zarr compression
    compression_options fill_value mode st
  = create_dataset path dt shape chunks is_zarr
      (effective_compression is_zarr compression)
      compression_options fill_value mode st.
Proof.
  unfold create_dataset. now rewrite effective_compression_idem.
Qed.

(** Creation of a Zarr dataset with the default compressor, when the
    operating system and the engine succeed. *)
Lemma create_zarr_default_succeeds (path : string) (dt : np_dtype)
    (shape chunks : list Z) (compression_options : pydict)
    (fill_value : pyval) (mode name : string) (st st1 st2 st3 : fs)
    (impl : dset_impl) :
  os_path_exists path st = false ->
  dtype_lookup dt zarr_dtype_dict = Some name ->
  os_mkdir path st = (Ok tt, st1) ->
  json_dump_to (os_path_join path ".zarray")
    (PDict (zarr_params (PStr name) shape chunks fill_value
              (PDict [("id", PStr "blosc");
                      ("cname", dict_get compression_options "codec" (PStr "lz4"));
                      ("clevel", dict_get compression_options "level" (PInt 5));
                      ("shuffle", dict_get compression_options "shuffle" (PInt 1))])))
    st1 = (Ok tt, st2) ->
  open_dataset path mode st2 = (Ok impl, st3) ->
  create_dataset path dt shape chunks true zarr_default_compressor
    compression_options fill_value mode st
  = (Ok (MkDataset path impl), st3).
Proof.
  intros Hex Hdt Hmk Hdump Hopen.
  unfold create_dataset. rewrite Hex.
  cbn [effective_compression zarr_default_compressor str_in compressors_zarr
       existsb String.eqb andb negb orb].
  rewrite Hdt.
  rewrite bool_decide_eq_true_2 by (eexists; reflexivity).
  unfold _create_dataset_zarr, dtype_name, lift, mbind, M_bind, mret, M_ret.
  cbn [negb]. cbv beta. rewrite Hmk, Hdt. simpl in *.
  rewrite Hdump, Hopen. reflexivity.
Qed.

Lemma create_n5_default_succeeds (path : string) (dt : np_dtype)
    (shape chunks : list Z) (compression_options : pydict)
    (fill_value : pyval) (mode name : string) (st st1 st2 st3 : fs)
    (impl : dset_impl) :
  os_path_exists path st = false ->
  dtype_lookup dt dtype_dict = Some name ->
  os_mkdir path st = (Ok tt, st1) ->
  json_dump_to (os_path_join path "attributes.json")
    (PDict (n5_params (PStr name) shape chunks
              (PDict [("type", PStr "gzip");
                      ("level", dict_get compression_options "level" (PInt 5))])))
    st1 = (Ok tt, st2) ->
  open_dataset path mode st2 = (Ok impl, st3) ->
  create_dataset path dt shape chunks false n5_default_compressor
    compression_options fill_value mode st
  = (Ok (MkDataset path impl), st3).
Proof.
  intros Hex Hdt Hmk Hdump Hopen.
  unfold create_dataset. rewrite Hex.
  cbn [effective_compression n5_default_compressor str_in compressors_n5
       existsb String.eqb andb negb orb].
  rewrite Hdt.
  rewrite bool_decide_eq_true_2 by (eexists; reflexivity).
  unfold _create_dataset_n5, dtype_name, lift, mbind, M_bind, mret, M_ret.
  cbn [negb]. cbv beta. rewrite Hmk, Hdt. simpl in *.
  rewrite Hdump, Hopen. reflexivity.
Qed.
End creation_facts.

(** C7: a compression name outside the dialect's supported list is
    replaced by the dialect's default ("blosc" for Zarr, "gzip" for N5):
    creation then behaves exactly as creation with the default, the encoder
    accepts the name it is given, and when the path is free, the dtype is in
    the dialect's table and the calls into the operating system and the
    engine succeed, the dataset is created with the default compressor in
    its sidecar file. *)
Theorem unsupported_compression_falls_back {fs : Type} `{OS fs}
    (path : string) (dt : np_dtype) (shape chunks : list Z) (is_zarr : bool)
    (compression : string) (compression_options : pydict)
    (fill_value : pyval) (mode : string) :
  str_in compression (if is_zarr then compressors_zarr else compressors_n5) = false ->
  let default := if is_zarr then zarr_default_compressor
                 else n5_default_compressor in
  (forall st : fs,
      create_dataset path dt shape chunks is_zarr compression
        compression_options fill_value mode st
      = create_dataset path dt shape chunks is_zarr default
          compression_options fill_value mode st)
  /\ is_ok (if is_zarr
            then _to_zarr_compression_options
                   (effective_compression is_zarr compression) compression_options
            else _to_n5_compression_options
                   (effective_compression is_zarr compression) compression_options)
     = true
  /\ (forall (st st1 st2 st3 : fs) (name : string) (impl : dset_impl),
        os_path_exists path st = false ->
        dtype_lookup dt (if is_zarr then zarr_dtype_dict else dtype_dict)
        = Some name ->
        os_mkdir path st = (Ok tt, st1) ->
        json_dump_to (sidecar_file is_zarr path)
          (default_sidecar_doc is_zarr name shape chunks compression_options
             fill_value) st1 = (Ok tt, st2) ->
        open_dataset path mode st2 = (Ok impl, st3) ->
        create_dataset path dt shape chunks is_zarr compression
          compression_options fill_value mode st
        = (Ok (MkDataset path impl), st3)).
Proof.
  intros Hin default.
  assert (Heff : forall st : fs,
             create_dataset path dt shape chunks is_zarr compression
               compression_options fill_value mode st
             = create_dataset path dt shape chunks is_zarr default
                 compression_options fill_value mode st).
  { intros st. rewrite create_dataset_effective.
    now rewrite (effective_compression_default _ _ Hin). }
  split; [exact Heff|]. split.
  - pose proof (effective_compression_supported is_zarr compression) as Hsup.
    destruct is_zarr.
    + now apply to_zarr_supported_ok.
    + now apply to_n5_supported_ok.
  - intros st st1 st2 st3 name impl Hex Hdt Hmk Hdump Hopen.
    rewrite Heff. subst default. destruct is_zarr.
    + eapply create_zarr_default_succeeds; eauto.
    + eapply create_n5_default_succeeds; eauto.
Qed.

Lemma unsupported_compression_falls_back_witness :
  let created :=
    create_dataset (fs := gmap string node) "ds" float32 [10; 20] [5; 5]
      true "lz4raw" [] PNone "a" ∅ in
  created.1 = Ok (MkDataset "ds" (DsetImpl [10; 20] float32 true))
  /\ mem_load "ds/.zarray" created.2
     = Ok (PDict (zarr_params (PStr "<f4") [10; 20] [5; 5] PNone
                    (PDict [("id", PStr "blosc"); ("cname", PStr "lz4");
                            ("clevel", PInt 5); ("shuffle", PInt 1)]))).
Proof.
  pose (st1 := <["ds" := Dir]> (∅ : gmap string node)).
  pose (st2 := <["ds/.zarray" :=
                   File (default_sidecar_doc true "<f4" [10; 20] [5; 5] [] PNone)]> st1).
  destruct (unsupported_compression_falls_back (fs := gmap string node)
              "ds" float32 [10; 20] [5; 5] true "lz4raw" [] PNone "a" eq_refl)
    as (_ & _ & Hcreated).
  cbv zeta.
  rewrite (Hcreated ∅ st1 st2 st2 "<f4" (DsetImpl [10; 20] float32 true));
    [split|..]; vm_compute; reflexivity.
Defined.

(** C8: creation at a path that exists raises the existing-dataset error,
    and creation at a free path with a dtype outside the dialect's table
    raises the invalid-data-type error; in both cases the file-system state
    is returned as it was received, so neither the directory nor the
    sidecar file has been written. *)
Theorem create_dataset_fails_before_writing {fs : Type} `{OS fs}
    (path : string) (dt : np_dtype) (shape chunks : list Z) (is_zarr : bool)
    (compression : string) (compression_options : pydict)
    (fill_value : pyval) (mode : string) (st : fs) :
  (os_path_exists path st = true ->
   create_dataset path dt shape chunks is_zarr compression
     compression_options fill_value mode st
   = (Raise CannotCreateExisting, st))
  /\ (os_path_exists path st = false ->
      dtype_lookup dt (if is_zarr then zarr_dtype_dict else dtype_dict) = None ->
      create_dataset path dt shape chunks is_zarr compression
        compression_options fill_value mode st
      = (Raise (InvalidDataType is_zarr dt), st)).
Proof.
  split.
  - intros Hex. unfold create_dataset. now rewrite Hex.
  - intros Hex Hdt. unfold create_dataset. rewrite Hex.
    destruct is_zarr; rewrite Hdt;
      rewrite bool_decide_eq_false_2 by (intros [x Hx]; discriminate Hx);
      reflexivity.
Qed.

Lemma create_dataset_fails_before_writing_witness :
  let existing : gmap string node := <["ds" := Dir]> ∅ in
  create_dataset "ds" float32 [10; 20] [5; 5] false "gzip" [] PNone "a" existing
  = (Raise CannotCreateExisting, existing)
  /\ create_dataset (fs := gmap string node) "ds" complex64 [10; 20] [5; 5]
       false "gzip" [] PNone "a" ∅
     = (Raise (InvalidDataType false complex64), ∅).
Proof.
  split.
  - apply (create_dataset_fails_before_writing (fs := gmap string node)
             "ds" float32 [10; 20] [5; 5] false "gzip" [] PNone "a"
             (<["ds" := Dir]> ∅)).
    vm_compute; reflexivity.
  - apply (create_dataset_fails_before_writing (fs := gmap string node)
             "ds" complex64 [10; 20] [5; 5] false "gzip" [] PNone "a" ∅);
      vm_compute; reflexivity.
Defined.

(** * Further properties of index resolution *)

Section resolution_facts.
Variable self : Dataset.

Lemma walk_cons_resolve (len_index : Z) (fe : bool) (item : index_item)
    (rest : list index_item) (ss : list (option Z * Z)) (sz : Z) :
  not_ellipsis item -> shape self !! length ss = Some sz ->
  walk self len_index (item :: rest) ss fe
  = (bs ← resolve_item item sz; walk self len_index rest (ss ++ [bs]) fe).
Proof.
  intros Hne Hsz. destruct item as [n|s| |o]; simpl; unfold shape_at;
    rewrite ?Hsz; try reflexivity; [|discriminate Hne].
  destruct (py_int n); reflexivity.
Qed.

Lemma resolved_not_ellipsis (items : list index_item) (sizes : list Z)
    (pairs : list (option Z * Z)) :
  resolved items sizes pairs -> Forall not_ellipsis items.
Proof. induction 1 as [|? ? ? ? ? ? [Hne _] _ IH]; constructor; assumption. Qed.

(** Resolvable entries add their pairs, in order, each against the size at
    its own position. *)
Lemma walk_resolved (len_index : Z) (fe : bool) (items : list index_item)
    (sizes : list Z) (pairs : list (option Z * Z)) :
  resolved items sizes pairs ->
  forall ss,
    (forall j sz, sizes !! j = Some sz ->
                  shape self !! (length ss + j)%nat = Some sz) ->
    walk self len_index items ss fe = Ok (ss ++ pairs).
Proof.
  induction 1 as [|item sz bs items sizes pairs [Hne Hres] _ IH]; intros ss Hsizes.
  - simpl. now rewrite app_nil_r.
  - rewrite (walk_cons_resolve _ _ _ _ _ sz Hne).
    + rewrite Hres. simpl. rewrite IH.
      * now rewrite <- app_assoc.
      * intros j sz' Hj. rewrite length_app. simpl.
        replace (length ss + 1 + j)%nat with (length ss + S j)%nat by lia.
        now apply Hsizes.
    + specialize (Hsizes 0%nat sz eq_refl). now rewrite Nat.add_0_r in Hsizes.
Qed.

Lemma full_pairs_begin (from k : nat) :
  (full_pairs self from k).*1
  = replicate (length (take k (drop from (shape self)))) (Some 0).
Proof.
  unfold full_pairs. induction (take k (drop from (shape self))) as [|sz l IH];
    [reflexivity|]. simpl. f_equal. exact IH.
Qed.

Lemma full_pairs_shape (from k : nat) :
  (full_pairs self from k).*2 = take k (drop from (shape self)).
Proof.
  unfold full_pairs. induction (take k (drop from (shape self))) as [|sz l IH];
    [reflexivity|]. simpl. f_equal. exact IH.
Qed.

Lemma unzip_roi_nonempty (ss : list (option Z * Z)) :
  ss <> [] -> unzip_roi ss = Ok (ss.*1, ss.*2).
Proof. destruct ss; [congruence | reflexivity]. Qed.

(** A tuple with one entry per dimension and no ellipsis. *)
Lemma index_to_roi_full_tuple (l : list index_item) (pairs : list (option Z * Z)) :
  l <> [] -> resolved l (shape self) pairs ->
  index_to_roi self (IdxTuple l) = Ok (pairs.*1, pairs.*2).
Proof.
  intros Hnil Hres. unfold index_to_roi.
  rewrite index_list_explicit;
    [|eapply resolved_not_ellipsis; eauto
     |eapply Forall3_length_lm; eauto].
  simpl. rewrite (walk_resolved _ _ _ _ _ Hres) by (intros j sz Hj; exact Hj).
  simpl. apply unzip_roi_nonempty.
  intros ->. apply Forall3_length_lr in Hres. destruct l; [congruence | discriminate].
Qed.

(** A tuple with one ellipsis: the entries before it take the first
    dimensions, the entries after it the last ones, and every dimension in
    between is taken in full. *)
Lemma index_to_roi_around_ellipsis (pre post : list index_item)
    (bpre bpost : list (option Z * Z)) :
  shape self <> [] ->
  (length pre + length post <= length (shape self))%nat ->
  resolved pre (take (length pre) (shape self)) bpre ->
  resolved post (drop (length (shape self) - length post) (shape self)) bpost ->
  let middle := (length (shape self) - length pre - length post)%nat in
  index_to_roi self (IdxTuple (pre ++ IEllipsis :: post))
  = Ok (bpre.*1 ++ replicate middle (Some 0) ++ bpost.*1,
        bpre.*2 ++ take middle (drop (length pre) (shape self)) ++ bpost.*2).
Proof.
  intros Hdims Hlen Hpre Hpost middle.
  pose proof (resolved_not_ellipsis _ _ _ Hpre) as Hnpre.
  pose proof (resolved_not_ellipsis _ _ _ Hpost) as Hnpost.
  pose proof (Forall3_length_lr _ _ _ _ Hpre) as Hlpre.
  unfold index_to_roi.
  rewrite index_list_with_ellipsis by assumption. simpl.
  rewrite walk_app by assumption.
  rewrite (walk_resolved _ _ _ _ _ Hpre)
    by (intros j sz Hj; apply lookup_take_Some in Hj as [Hj _]; exact Hj).
  simpl. rewrite <- Hlpre.
  replace (Z.to_nat _) with middle
    by (unfold ndim; rewrite length_app; simpl; subst middle; lia).
  rewrite fill_ellipsis_full;
    [|unfold ndim; rewrite length_app; simpl; subst middle; lia
     |subst middle; lia].
  simpl.
  assert (Hmid : length (take middle (drop (length pre) (shape self))) = middle).
  { rewrite length_take, length_drop. subst middle. lia. }
  rewrite (walk_resolved _ _ _ _ _ Hpost).
  - simpl. rewrite unzip_roi_nonempty.
    + rewrite !fmap_app, <- Hlpre, full_pairs_begin, full_pairs_shape, Hmid.
      now rewrite <- !app_assoc.
    + intros Hnil. apply (f_equal length) in Hnil.
      rewrite !length_app in Hnil. unfold full_pairs in Hnil.
      rewrite length_map, <- Hlpre, Hmid in Hnil.
      rewrite <- (Forall3_length_lr _ _ _ _ Hpost) in Hnil.
      destruct (shape self); [congruence|]. simpl in *. subst middle. simpl in *. lia.
  - intros j sz Hj. rewrite lookup_drop in Hj.
    rewrite length_app. unfold full_pairs. rewrite length_map, <- Hlpre, Hmid.
    rewrite <- Hj. f_equal. subst middle. lia.
Qed.
End resolution_facts.

(** X1: in a tuple without ellipsis that has one entry per dimension, every
    entry is resolved on its own against the size of the dimension at its
    position, and the ROI collects the offsets and extents in order. *)
Theorem tuple_entries_resolve_own_dimension (self : Dataset)
    (l : list index_item) (pairs : list (option Z * Z)) :
  l <> [] -> resolved l (shape self) pairs ->
  index_to_roi self (IdxTuple l) = Ok (pairs.*1, pairs.*2).
Proof. apply index_to_roi_full_tuple. Qed.

Lemma tuple_entries_resolve_own_dimension_witness :
  index_to_roi (dataset_of_shape [10; 20])
    (IdxTuple [INum (NInt (-3)); ISlice (Slice (Some 2) (Some 5) None)])
  = Ok ([Some 7; Some 2], [1; 3]).
Proof.
  apply (tuple_entries_resolve_own_dimension (dataset_of_shape [10; 20])
           [INum (NInt (-3)); ISlice (Slice (Some 2) (Some 5) None)]
           [(Some 7, 1); (Some 2, 3)]).
  - discriminate.
  - repeat constructor.
Defined.

(** X2: in a tuple with one ellipsis the entries before the ellipsis are
    resolved against the first dimensions, the entries after it against the
    last dimensions, and every dimension in between is selected in full,
    from offset 0 and with the size of the dimension as extent. *)
Theorem ellipsis_aligns_trailing_entries (self : Dataset)
    (pre post : list index_item) (bpre bpost : list (option Z * Z)) :
  shape self <> [] ->
  (length pre + length post <= length (shape self))%nat ->
  resolved pre (take (length pre) (shape self)) bpre ->
  resolved post (drop (length (shape self) - length post) (shape self)) bpost ->
  index_to_roi self (IdxTuple (pre ++ IEllipsis :: post))
  = Ok (bpre.*1
          ++ replicate (length (shape self) - length pre - length post) (Some 0)
          ++ bpost.*1,
        bpre.*2
          ++ take (length (shape self) - length pre - length post)
               (drop (length pre) (shape self))
          ++ bpost.*2).
Proof. apply index_to_roi_around_ellipsis. Qed.

Lemma ellipsis_aligns_trailing_entries_witness :
  index_to_roi (dataset_of_shape [3; 4; 5; 6])
    (IdxTuple [INum (NInt 1); IEllipsis; ISlice (Slice (Some 1) (Some 3) None)])
  = Ok ([Some 1; Some 0; Some 0; Some 1], [1; 4; 5; 2]).
Proof.
  apply (ellipsis_aligns_trailing_entries (dataset_of_shape [3; 4; 5; 6])
           [INum (NInt 1)] [ISlice (Slice (Some 1) (Some 3) None)]
           [(Some 1, 1)] [(Some 1, 2)]).
  - discriminate.
  - simpl. lia.
  - repeat constructor.
  - repeat constructor.
Defined.

(** X3: on a dataset with at least one dimension, the bare ellipsis, the
    tuple holding only the ellipsis and the empty tuple all select the whole
    dataset: offset 0 in every dimension and the dataset's shape as
    extents, also where a dimension has size 0. *)
Theorem ellipsis_selects_whole_dataset (self : Dataset) :
  shape self <> [] ->
  let whole := Ok (replicate (length (shape self)) (Some 0), shape self) in
  index_to_roi self (IdxBare IEllipsis) = whole
  /\ index_to_roi self (IdxTuple [IEllipsis]) = whole
  /\ index_to_roi self (IdxTuple []) = whole.
Proof.
  intros Hdims whole.
  assert (Hell : index_to_roi self (IdxTuple [IEllipsis]) = whole).
  { assert (Hpost : resolved [] (drop (length (shape self) - length (@nil index_item))
                                   (shape self)) []).
    { simpl. rewrite Nat.sub_0_r, drop_all. constructor. }
    pose proof (index_to_roi_around_ellipsis self [] [] [] [] Hdims
                  ltac:(simpl; lia) ltac:(constructor) Hpost) as Hall.
    cbn [app length fmap list_fmap] in Hall.
    rewrite !app_nil_r, !Nat.sub_0_r, drop_0, firstn_all in Hall.
    exact Hall. }
  split; [exact Hell|]. split; [exact Hell|].
  transitivity (index_to_roi self (IdxTuple ([] ++ [IEllipsis])));
    [|exact Hell].
  apply short_index_as_ellipsis; [constructor|].
  destruct (shape self); [congruence | simpl; lia].
Qed.

Lemma ellipsis_selects_whole_dataset_witness :
  index_to_roi (dataset_of_shape [3; 0; 5]) (IdxBare IEllipsis)
  = Ok ([Some 0; Some 0; Some 0], [3; 0; 5])
  /\ index_to_roi (dataset_of_shape [3; 0; 5]) (IdxTuple [])
     = Ok ([Some 0; Some 0; Some 0], [3; 0; 5]).
Proof.
  assert (Hdims : shape (dataset_of_shape [3; 0; 5]) <> []) by discriminate.
  destruct (ellipsis_selects_whole_dataset (dataset_of_shape [3; 0; 5]) Hdims)
    as (Hbare & _ & Hempty).
  split; [exact Hbare | exact Hempty].
Defined.

(** The list that is walked is the index's entries, with an ellipsis
    appended only when they hold none. *)
Lemma index_list_entries (self : Dataset) (idx : index) (lst : list index_item) :
  index_list self idx = Ok lst ->
  lst = index_entries idx
  \/ (lst = index_entries idx ++ [IEllipsis]
      /\ existsb is_ellipsis (index_entries idx) = false).
Proof.
  unfold index_list. intros Hres.
  apply bind_Ok in Hres as (l & Hl & Hres).
  assert (l = index_entries idx) as ->.
  { destruct idx as [l'|i]; simpl in *; [congruence|].
    destruct i; congruence. }
  destruct (_ <? _); [discriminate|].
  destruct (Z.of_nat _ <? _); simpl in Hres.
  - destruct (existsb is_ellipsis (index_entries idx)) eqn:He; simpl in Hres;
      inversion Hres; auto.
  - inversion Hres; auto.
Qed.

(** X4: an index that resolves holds at most one ellipsis and at most
    [ndim] other entries; with a second ellipsis or a surplus entry
    resolution never returns a ROI. *)
Theorem resolved_index_is_well_formed (self : Dataset) (idx : index)
    (roi : list (option Z) * list Z) :
  index_to_roi self idx = Ok roi ->
  (length (index_entries idx)
   <= S (length (filter not_ellipsis (index_entries idx))))%nat
  /\ (length (filter not_ellipsis (index_entries idx)) <= length (shape self))%nat.
Proof.
  unfold index_to_roi. intros Hres.
  apply bind_Ok in Hres as (lst & Hlst & Hres).
  apply bind_Ok in Hres as (ss & Hwalk & _).
  pose proof (index_list_shape _ _ _ Hlst) as [Hcnt _].
  apply walk_resolves in Hwalk as (_ & Hone & _); [|simpl; lia].
  apply index_list_entries in Hlst as [-> | [-> Hno]].
  - split; [|unfold ndim in Hcnt; lia].
    destruct (existsb is_ellipsis (index_entries idx)) eqn:He.
    + specialize (Hone eq_refl). lia.
    + apply existsb_not_ellipsis in He.
      rewrite (filter_not_ellipsis_id _ He). lia.
  - apply existsb_not_ellipsis in Hno.
    rewrite filter_app, (filter_not_ellipsis_id _ Hno), length_app in Hcnt.
    rewrite (filter_not_ellipsis_id _ Hno). unfold ndim in Hcnt. simpl in Hcnt.
    split; lia.
Qed.

Lemma resolved_index_is_well_formed_witness :
  let idx := IdxTuple [INum (NInt 1); IEllipsis; INum (NInt 2)] in
  let self := dataset_of_shape [3; 4; 5] in
  (length (index_entries idx)
   <= S (length (filter not_ellipsis (index_entries idx))))%nat
  /\ (length (filter not_ellipsis (index_entries idx))
      <= length (shape self))%nat.
Proof.
  exact (resolved_index_is_well_formed (dataset_of_shape [3; 4; 5])
           (IdxTuple [INum (NInt 1); IEllipsis; INum (NInt 2)])
           ([Some 1; Some 0; Some 2], [1; 4; 1]) eq_refl).
Defined.

Lemma index_to_roi_Ok_nonempty (self : Dataset) (idx : index)
    (roi_begin : list (option Z)) (roi_shape : list Z) :
  index_to_roi self idx = Ok (roi_begin, roi_shape) -> roi_begin <> [].
Proof.
  unfold index_to_roi. intros Hres.
  apply bind_Ok in Hres as (lst & _ & Hres).
  apply bind_Ok in Hres as (ss & _ & Hres).
  unfold unzip_roi in Hres. destruct ss; [discriminate|].
  inversion Hres. discriminate.
Qed.

(** X5: on a dataset without dimensions no index resolves: every index,
    the empty tuple and the ellipsis included, raises. *)
Theorem no_dimensions_never_resolves (self : Dataset) (idx : index) :
  shape self = [] -> is_ok (index_to_roi self idx) = false.
Proof.
  intros Hdims.
  destruct (index_to_roi self idx) as [[roi_begin roi_shape]|e] eqn:Hres;
    [|reflexivity].
  exfalso. apply (index_to_roi_Ok_nonempty _ _ _ _ Hres).
  apply index_to_roi_dims in Hres as (ss & -> & _ & Hlen & _).
  rewrite Hdims in Hlen. destruct ss; [reflexivity | discriminate].
Qed.

Lemma no_dimensions_never_resolves_witness :
  is_ok (index_to_roi (dataset_of_shape []) (IdxBare IEllipsis)) = false.
Proof.
  exact (no_dimensions_never_resolves (dataset_of_shape []) (IdxBare IEllipsis)
           eq_refl).
Defined.

(** X6: when the entries before an entry resolve and that entry fails on
    the dimension at its position, the index raises that entry's exception
    whatever follows it, provided the tuple holds at most [ndim] entries
    other than the ellipsis. *)
Theorem first_failing_entry_decides (self : Dataset)
    (pre post : list index_item) (bpre : list (option Z * Z))
    (item : index_item) (sz : Z) (e : exn) :
  resolved pre (take (length pre) (shape self)) bpre ->
  shape self !! length pre = Some sz ->
  not_ellipsis item -> resolve_item item sz = Raise e ->
  (length (filter not_ellipsis (pre ++ item :: post)) <= length (shape self))%nat ->
  index_to_roi self (IdxTuple (pre ++ item :: post)) = Raise e.
Proof.
  intros Hpre Hsz Hne Hraise Hcnt.
  pose proof (resolved_not_ellipsis _ _ _ Hpre) as Hnpre.
  pose proof (Forall3_length_lr _ _ _ _ Hpre) as Hlpre.
  assert (Hwalk : forall len_index rest,
             walk self len_index (pre ++ item :: rest) [] false = Raise e).
  { intros len_index rest. rewrite walk_app by assumption.
    rewrite (walk_resolved _ _ _ _ _ _ Hpre)
      by (intros j sz' Hj; apply lookup_take_Some in Hj as [Hj _]; exact Hj).
    unfold mbind at 1, result_bind at 1. cbv beta iota.
    rewrite (walk_cons_resolve _ _ _ _ _ _ sz Hne)
      by (cbn [app]; rewrite <- Hlpre; exact Hsz).
    now rewrite Hraise. }
  unfold index_to_roi, index_list. simpl.
  destruct (Z.ltb_spec (ndim self)
              (Z.of_nat (length (filter not_ellipsis (pre ++ item :: post)))));
    [unfold ndim in *; lia|].
  destruct (_ && _); simpl.
  - rewrite <- app_assoc. simpl. now rewrite Hwalk.
  - now rewrite Hwalk.
Qed.

Lemma first_failing_entry_decides_witness :
  index_to_roi (dataset_of_shape [10; 20; 30])
    (IdxTuple [INum (NInt 5); INum (NInt 20); IOther ONone])
  = Raise (IndexOutOfRange 20 20).
Proof.
  apply (first_failing_entry_decides (dataset_of_shape [10; 20; 30])
           [INum (NInt 5)] [IOther ONone] [(Some 5, 1)] (INum (NInt 20)) 20).
  - repeat constructor.
  - reflexivity.
  - reflexivity.
  - reflexivity.
  - simpl. lia.
Defined.

(** * Further properties of the per-dimension functions *)

(** X7: for a slice with step [None] or 1 whose start is [None] or lies in
    [- size, size), the result covers exactly the positions the slice
    denotes inside the dimension (negative bounds counted from the end, the
    stop clipped to the size): a non-empty result is the interval of those
    positions, and the empty result is returned exactly when there is
    none. *)
Theorem slice_covers_denoted_positions (s : slice) (size : Z) :
  0 <= size -> step_supported s = true ->
  (start s = None \/ exists a, start s = Some a /\ - size <= a < size) ->
  match slice_to_begin_shape s size with
  | Ok (Some b, n) =>
      forall k, b <= k < b + n
                <-> slice_lo s size <= k < slice_hi s size /\ 0 <= k < size
  | Ok (None, _) =>
      forall k, ~ (slice_lo s size <= k < slice_hi s size /\ 0 <= k < size)
  | Raise _ => False
  end.
Proof.
  unfold slice_to_begin_shape, slice_lo, slice_hi, from_end.
  intros Hsize -> Hstart. simpl.
  destruct (start s) as [a|], (stop s) as [sp|];
    destruct Hstart as [Hnone | (a' & Ha' & Hrange)];
    try discriminate; try (inversion Ha'; subst a');
    zcases; intros k; lia.
Qed.

Lemma slice_covers_denoted_positions_witness :
  slice_to_begin_shape (Slice (Some (-3)) (Some (-1)) None) 10 = Ok (Some 7, 2)
  /\ (7 <= 8 < 7 + 2 <-> (10 + -3 <= 8 < 10 + -1 /\ 0 <= 8 < 10)).
Proof.
  assert (Hsize : 0 <= 10) by lia.
  assert (Hstart : start (Slice (Some (-3)) (Some (-1)) None) = None
                   \/ exists a, start (Slice (Some (-3)) (Some (-1)) None) = Some a
                                /\ - 10 <= a < 10).
  { right. exists (-3). split; [reflexivity | lia]. }
  split; [reflexivity|].
  exact (slice_covers_denoted_positions (Slice (Some (-3)) (Some (-1)) None) 10
           Hsize eq_refl Hstart 8).
Defined.

(** X8: on a dimension of size at least 1 a scalar is accepted exactly
    when it lies in [- size, size); the extent is then 1, and for every
    accepted scalar above [- size] the offset is the scalar modulo the
    size. *)
Theorem scalar_accepted_exactly_in_range (i size : Z) :
  1 <= size ->
  (is_ok (int_to_begin_shape i size) = true <-> - size <= i < size)
  /\ (- size < i < size ->
      int_to_begin_shape i size = Ok (Some (i mod size), 1)).
Proof.
  intros Hsize. split.
  - unfold int_to_begin_shape. zcases; split; intros Hx;
      try reflexivity; try discriminate; lia.
  - intros Hi. destruct (Z_lt_le_dec i 0) as [Hneg|Hpos].
    + rewrite int_to_begin_shape_neg by lia.
      replace (i mod size) with (i + size); [reflexivity|].
      rewrite <- (Z.mod_add i 1 size) by lia.
      rewrite Z.mul_1_l. symmetry. apply Z.mod_small. lia.
    + rewrite int_to_begin_shape_nonneg by lia.
      rewrite Z.mod_small by lia. reflexivity.
Qed.

Lemma scalar_accepted_exactly_in_range_witness :
  (is_ok (int_to_begin_shape (-3) 10) = true <-> - 10 <= -3 < 10)
  /\ int_to_begin_shape (-3) 10 = Ok (Some 7, 1).
Proof.
  assert (Hsize : 1 <= 10) by lia.
  destruct (scalar_accepted_exactly_in_range (-3) 10 Hsize) as [Hiff Hmod].
  split; [exact Hiff|]. apply Hmod. lia.
Defined.

(** * Further properties of reading and writing *)

(** ** Reading by index and reading by corners *)

Section extents.
Variable self : Dataset.
Hypothesis sizes_nonneg : Forall (fun sz => 0 <= sz) (shape self).

Lemma size_nonneg (d : nat) (sz : Z) : shape self !! d = Some sz -> 0 <= sz.
Proof. intros Hsz. exact (proj1 (Forall_lookup _ _) sizes_nonneg _ _ Hsz). Qed.

Lemma fill_ellipsis_extents (len_index d : Z) (fuel : nat) :
  forall ss out,
    fill_ellipsis self len_index d fuel ss = Ok out ->
    Forall (fun bs => 0 <= bs.2) ss -> Forall (fun bs => 0 <= bs.2) out.
Proof.
  induction fuel as [|fuel IH]; intros ss out; simpl.
  - destruct (_ <? _); intros Hres; inversion Hres; subst; auto.
  - destruct (_ <? _); [|intros Hres; inversion Hres; subst; auto].
    intros Hres Hss. apply bind_Ok in Hres as (sz & Hsz & Hres).
    apply shape_at_Ok in Hsz. apply (IH _ _ Hres).
    apply Forall_app_2; [exact Hss|]. constructor; [|constructor].
    simpl. eapply size_nonneg; eauto.
Qed.

(** On a dataset whose sizes are not negative no extent is negative. *)
Lemma walk_extents (len_index : Z) (items : list index_item) :
  forall ss fe out,
    walk self len_index items ss fe = Ok out ->
    Forall (fun bs => 0 <= bs.2) ss -> Forall (fun bs => 0 <= bs.2) out.
Proof.
  induction items as [|item rest IH]; intros ss fe out; simpl.
  - intros Hres; inversion Hres; subst; auto.
  - destruct item as [n|s| |o]; try discriminate.
    + intros Hres Hss.
      apply bind_Ok in Hres as (i & _ & Hres).
      apply bind_Ok in Hres as (sz & _ & Hres).
      apply bind_Ok in Hres as ([ob k] & Hbs & Hres).
      apply (IH _ _ _ Hres). apply Forall_app_2; [exact Hss|].
      apply int_accepted_bounds in Hbs as (-> & _).
      constructor; [simpl; lia | constructor].
    + intros Hres Hss.
      apply bind_Ok in Hres as (sz & _ & Hres).
      apply bind_Ok in Hres as ([ob k] & Hbs & Hres).
      apply (IH _ _ _ Hres). apply Forall_app_2; [exact Hss|].
      constructor; [|constructor]. simpl. destruct ob as [b|].
      * apply slice_nonempty_bounds in Hbs. lia.
      * apply slice_empty_shape in Hbs. lia.
    + destruct fe; [discriminate|]. intros Hres Hss.
      apply bind_Ok in Hres as (filled & Hfill & Hres).
      apply (IH _ _ _ Hres). eapply fill_ellipsis_extents; eauto.
Qed.

Lemma index_to_roi_extents (idx : index) (roi_begin : list (option Z))
    (shp : list Z) :
  index_to_roi self idx = Ok (roi_begin, shp) -> Forall (fun n => 0 <= n) shp.
Proof.
  unfold index_to_roi. intros Hres.
  apply bind_Ok in Hres as (lst & _ & Hres).
  apply bind_Ok in Hres as (ss & Hwalk & Hres).
  apply walk_extents in Hwalk; [|constructor].
  unfold unzip_roi in Hres. destruct ss as [|bs ss]; [discriminate|].
  inversion Hres; subst.
  change (Forall (fun n => 0 <= n) (snd <$> (bs :: ss))).
  apply Forall_fmap. exact Hwalk.
Qed.
End extents.

(** The offsets of a resolved ROI without a zero extent are integers. *)
Lemma resolved_begins_integer (self : Dataset) (idx : index)
    (roi_begin : list (option Z)) (shp : list Z) :
  index_to_roi self idx = Ok (roi_begin, shp) ->
  existsb (Z.eqb 0) shp = false ->
  forallb (fun ob : option Z => bool_decide (is_Some ob)) roi_begin = true.
Proof.
  intros Hroi Hzero.
  apply index_to_roi_dims in Hroi as (ss & -> & -> & _ & Hall).
  clear -Hall Hzero. revert Hzero.
  induction Hall as [|sz [ob n] sh ss Hok _ IH]; [reflexivity|].
  cbn [map fst snd existsb forallb]. intros Hzero.
  apply orb_false_iff in Hzero as [Hn Hrest]. rewrite (IH Hrest).
  apply Z.eqb_neq in Hn. destruct ob as [b|]; simpl in Hok; [reflexivity|].
  congruence.
Qed.

Lemma dims_requested (sh : list Z) (ss : list (option Z * Z)) :
  Forall2 dim_ok sh ss -> Forall (fun bs => 0 <= bs.2) ss ->
  existsb (Z.eqb 0) (map snd ss) = false ->
  forallb (fun '(ob, n, sz) => dimension_requested ob n sz)
    (zip (zip (map fst ss) (map snd ss)) sh) = true
  /\ forallb (fun '(ob, sz) =>
                match ob with
                | Some b => ((0 <=? b) && (b <? sz)) || (b =? - sz)
                | None => false
                end)
       (zip (map fst ss) sh) = true.
Proof.
  induction 1 as [|sz [ob n] sh ss Hok _ IH]; [split; reflexivity|].
  cbn [map fst snd existsb zip zip_with forallb].
  intros Hext Hzero. apply Forall_cons in Hext as [Hn0 Hext].
  apply orb_false_iff in Hzero as [Hn Hrest].
  destruct (IH Hext Hrest) as [IH1 IH2]. rewrite IH1, IH2.
  apply Z.eqb_neq in Hn. simpl in Hn0.
  destruct ob as [b|]; simpl in Hok; [|congruence].
  destruct Hok as [Hend Hneg]. unfold dimension_requested.
  destruct (Z.eq_dec b (- sz)) as [->|Hb].
  - rewrite Z.eqb_refl, !orb_true_r.
    replace (1 <=? n) with true by (symmetry; apply Z.leb_le; lia).
    replace (- sz + n <=? sz) with true by (symmetry; apply Z.leb_le; lia).
    split; reflexivity.
  - specialize (Hneg Hb).
    replace (1 <=? n) with true by (symmetry; apply Z.leb_le; lia).
    replace (b + n <=? sz) with true by (symmetry; apply Z.leb_le; lia).
    replace (0 <=? b) with true by (symmetry; apply Z.leb_le; lia).
    replace (b <? sz) with true by (symmetry; apply Z.ltb_lt; lia).
    split; reflexivity.
Qed.

(** On a dataset whose sizes are not negative, a resolved ROI without a
    zero extent has the form [roi_requested] describes. *)
Lemma resolved_roi_requested (self : Dataset) (idx : index)
    (roi_begin : list (option Z)) (shp : list Z) :
  Forall (fun sz => 0 <= sz) (shape self) ->
  index_to_roi self idx = Ok (roi_begin, shp) ->
  existsb (Z.eqb 0) shp = false ->
  roi_requested (_impl self) roi_begin shp = true
  /\ begin_requested (_impl self) roi_begin = true.
Proof.
  intros Hsizes Hroi Hzero.
  pose proof (index_to_roi_extents self Hsizes _ _ _ Hroi) as Hext.
  apply index_to_roi_dims in Hroi as (ss & -> & -> & Hlen & Hall).
  assert (Hext' : Forall (fun bs : option Z * Z => 0 <= bs.2) ss).
  { clear -Hext. induction ss as [|bs ss IH]; [constructor|].
    simpl in Hext. apply Forall_cons in Hext as [Hb Hext].
    constructor; [exact Hb | now apply IH]. }
  destruct (dims_requested _ _ Hall Hext' Hzero) as [Hreq Hbeg].
  unfold roi_requested, begin_requested, shape in *.
  rewrite !length_map, Hlen, Nat.eqb_refl, Hreq, Hbeg.
  split; reflexivity.
Qed.

Section engine_requests.
Context {V store : Type}.
Variable np_empty : list Z -> np_dtype -> list Z -> V.
Variable read_subarray :
  dset_impl -> ndarray V -> list (option Z) -> result (list Z -> V).
Variable write_subarray :
  dset_impl -> ndarray V -> list (option Z) -> store -> result unit * store.
Variable write_scalar :
  dset_impl -> list (option Z) -> list Z -> number -> store -> result unit * store.

(** X9: on a dataset whose sizes are not negative, every request
    [__getitem__] makes to the engine has one integer offset per dimension
    (never the [None] of an empty slice), extents of at least 1 and regions
    that end inside their dimensions, and every offset is non-negative
    except the offset [- size] that the scalar index [- size] resolves to.
    An engine that refuses every other request therefore gives the same
    results. *)
Theorem getitem_requests_resolved_regions (self : Dataset) (idx : index) :
  Forall (fun sz => 0 <= sz) (shape self) ->
  __getitem__ np_empty (guarded_read read_subarray) self idx
  = __getitem__ np_empty read_subarray self idx.
Proof.
  intros Hsizes. unfold __getitem__.
  destruct (index_to_roi self idx) as [[roi_begin shp]|e] eqn:Hroi;
    [|reflexivity].
  simpl. destruct (existsb (Z.eqb 0) shp) eqn:Hzero; [reflexivity|].
  unfold guarded_read. simpl.
  now rewrite (proj1 (resolved_roi_requested _ _ _ _ Hsizes Hroi Hzero)).
Qed.

(** X10: on a dataset whose sizes are not negative, [__setitem__] calls
    [write_scalar] only with such a region, and [write_subarray] only with
    an array of [ndim] dimensions and one integer offset per dimension that
    lies inside the dimension or is exactly minus its size; engines that
    refuse every other request give the same outcome and the same store.
    The extents of the array are not compared with the ROI. *)
Theorem setitem_requests_resolved_regions (self : Dataset) (idx : index)
    (item : set_item V) (st : store) :
  Forall (fun sz => 0 <= sz) (shape self) ->
  __setitem__ (guarded_write_subarray write_subarray)
    (guarded_write_scalar write_scalar) self idx item st
  = __setitem__ write_subarray write_scalar self idx item st.
Proof.
  intros Hsizes. unfold __setitem__.
  destruct item as [n|a|o]; [| |reflexivity];
    (destruct (index_to_roi self idx) as [[roi_begin shp]|e] eqn:Hroi;
     [|reflexivity]);
    (destruct (existsb (Z.eqb 0) shp) eqn:Hzero; [reflexivity|]);
    destruct (resolved_roi_requested _ _ _ _ Hsizes Hroi Hzero) as [Hacc Hint].
  - unfold guarded_write_scalar. now rewrite Hacc.
  - destruct (Z.eqb_spec (Z.of_nat (length (arr_shape a))) (ndim self))
      as [Hdim|Hdim]; simpl; [|reflexivity].
    unfold guarded_write_subarray. rewrite Hint. simpl.
    unfold ndim, shape in Hdim.
    replace (length (arr_shape a) =? length (impl_shape (_impl self)))%nat
      with true by (symmetry; apply Nat.eqb_eq; lia).
    reflexivity.
Qed.
End engine_requests.

Lemma getitem_requests_resolved_regions_witness :
  let self := dataset_of_shape [10; 20] in
  let idx := IdxTuple [INum (NInt (-10)); ISlice (Slice (Some 2) (Some 5) None)] in
  index_to_roi self idx = Ok ([Some (-10); Some 2], [1; 3])
  /\ __getitem__ example_empty (guarded_read example_read) self idx
     = __getitem__ example_empty example_read self idx.
Proof.
  split; [reflexivity|].
  apply (getitem_requests_resolved_regions example_empty example_read
           (dataset_of_shape [10; 20])
           (IdxTuple [INum (NInt (-10)); ISlice (Slice (Some 2) (Some 5) None)])).
  repeat constructor; lia.
Defined.

Lemma setitem_requests_resolved_regions_witness :
  let self := dataset_of_shape [10; 20] in
  let idx := IdxTuple [INum (NInt (-10)); ISlice (Slice (Some 2) (Some 5) None)] in
  __setitem__ (guarded_write_subarray example_write_subarray)
    (guarded_write_scalar example_write_scalar) self idx (ItemNumber (NInt 7)) 0%nat
  = __setitem__ example_write_subarray example_write_scalar self idx
      (ItemNumber (NInt 7)) 0%nat.
Proof.
  apply (setitem_requests_resolved_regions example_write_subarray
           example_write_scalar (dataset_of_shape [10; 20])
           (IdxTuple [INum (NInt (-10)); ISlice (Slice (Some 2) (Some 5) None)])
           (ItemNumber (NInt 7)) 0%nat).
  repeat constructor; lia.
Defined.

Lemma corners_give_extents (start shp : list Z) :
  length start = length shp ->
  zip_with (fun sta sto => sto - sta) start (zip_with Z.add start shp) = shp.
Proof.
  revert shp. induction start as [|b start IH]; intros [|n shp] Hlen;
    try discriminate; [reflexivity|].
  simpl. rewrite IH by (simpl in Hlen; lia). f_equal. lia.
Qed.

Lemma integer_begins (roi_begin : list (option Z)) :
  forallb (fun ob : option Z => bool_decide (is_Some ob)) roi_begin = true ->
  roi_begin = Some <$> (default 0 <$> roi_begin).
Proof.
  induction roi_begin as [|ob l IH]; [reflexivity|]. simpl.
  intros Hall. apply andb_true_iff in Hall as [Hob Hl].
  apply bool_decide_eq_true in Hob as [b ->]. simpl. f_equal. now apply IH.
Qed.

Lemma nonneg_no_negative (shp : list Z) :
  Forall (fun n => 0 <= n) shp -> existsb (fun n => n <? 0) shp = false.
Proof.
  induction 1 as [|n shp Hn _ IH]; [reflexivity|]. simpl. rewrite IH.
  destruct (Z.ltb_spec n 0); [lia | reflexivity].
Qed.

Lemma squeeze_test_raises (self : Dataset) (idx : index) (e : exn) :
  squeeze_test self idx = Raise e -> e = NoLen.
Proof.
  unfold squeeze_test. destruct idx as [l|i]; [discriminate|].
  destruct i as [n|s| |o]; try (intros Hres; inversion Hres; reflexivity).
  destruct o; try discriminate. intros Hres; inversion Hres; reflexivity.
Qed.

Section corners.
Context {V : Type}.
Variable np_empty : list Z -> np_dtype -> list Z -> V.
Variable read_subarray :
  dset_impl -> ndarray V -> list (option Z) -> result (list Z -> V).

(** X11: on a dataset whose sizes are not negative, reading through an
    index that resolves to a ROI without a zero extent is the corner read
    [read_subarray(begin, begin + shape)] of that ROI: [__getitem__] returns
    the array the corner read returns, or its element at (0, ..., 0) when
    it squeezes, and raises what the corner read raises. *)
Theorem getitem_is_corner_read (self : Dataset) (idx : index)
    (roi_begin : list (option Z)) (shp : list Z) :
  Forall (fun sz => 0 <= sz) (shape self) ->
  index_to_roi self idx = Ok (roi_begin, shp) ->
  existsb (Z.eqb 0) shp = false ->
  let start := default 0 <$> roi_begin in
  roi_begin = Some <$> start
  /\ match Dataset_read_subarray np_empty read_subarray self start
             (zip_with Z.add start shp) with
     | Returned a =>
         arr_shape a = shp
         /\ __getitem__ np_empty read_subarray self idx
            = Ok (if squeezes self idx
                  then Element (arr_at a (replicate (length shp) 0))
                  else Block a)
     | Raised e =>
         exists e', e = Core e'
                    /\ __getitem__ np_empty read_subarray self idx = Raise e'
     end.
Proof.
  intros Hsizes Hroi Hzero start.
  pose proof (resolved_begins_integer _ _ _ _ Hroi Hzero) as Hint.
  pose proof (integer_begins _ Hint) as Hbegin. fold start in Hbegin.
  split; [exact Hbegin|].
  assert (Hlen : length start = length shp).
  { pose proof Hroi as Hdims.
    apply index_to_roi_dims in Hdims as (ss & -> & -> & _).
    subst start. rewrite ?length_fmap, ?length_map. reflexivity. }
  unfold Dataset_read_subarray, __getitem__.
  rewrite (corners_give_extents _ _ Hlen).
  rewrite (nonneg_no_negative shp)
    by (eapply index_to_roi_extents; eauto).
  rewrite Hroi. simpl. rewrite Hzero, <- Hbegin.
  destruct (read_subarray _ _ _) as [filled|e]; simpl.
  - split; [reflexivity|]. unfold squeezes.
    destruct (squeeze_test self idx) as [[|]|e] eqn:Hsq; try reflexivity.
    apply squeeze_test_raises in Hsq. subst e. reflexivity.
  - exists e. auto.
Qed.
End corners.

Lemma getitem_is_corner_read_witness :
  let self := dataset_of_shape [10; 20] in
  let idx := IdxTuple [INum (NInt (-3)); ISlice (Slice (Some 2) (Some 5) None)] in
  Dataset_read_subarray example_empty example_read self [7; 2] [8; 5]
  = Returned (NdArray [1; 3] (fun _ => 42))
  /\ __getitem__ example_empty example_read self idx
     = Ok (Block (NdArray [1; 3] (fun _ => 42))).
Proof.
  assert (Hsizes : Forall (fun sz => 0 <= sz) (shape (dataset_of_shape [10; 20])))
    by (repeat constructor; lia).
  destruct (getitem_is_corner_read example_empty example_read
              (dataset_of_shape [10; 20])
              (IdxTuple [INum (NInt (-3)); ISlice (Slice (Some 2) (Some 5) None)])
              [Some 7; Some 2] [1; 3] Hsizes eq_refl eq_refl)
    as [_ Hread].
  split; [reflexivity|]. exact (proj2 Hread).
Defined.

(** * Further properties of the compression metadata and of creation *)

(** The encoders and the lists of compressors name the same
    algorithms. *)
Lemma encoders_and_lists_agree (compression : string)
    (compression_options : pydict) :
  (is_ok (_to_zarr_compression_options compression compression_options)
   = str_in compression compressors_zarr)
  /\ (_to_zarr_compression_options compression compression_options
      = Raise (CompressionNotSupported true compression)
      <-> str_in compression compressors_zarr = false)
  /\ (is_ok (_to_n5_compression_options compression compression_options)
      = str_in compression compressors_n5)
  /\ (_to_n5_compression_options compression compression_options
      = Raise (CompressionNotSupported false compression)
      <-> str_in compression compressors_n5 = false).
Proof.
  unfold str_in, compressors_zarr, compressors_n5,
    _to_zarr_compression_options, _to_n5_compression_options.
  cbn [existsb]. rewrite !orb_false_r.
  destruct (String.eqb compression "blosc"),
           (String.eqb compression "zlib"),
           (String.eqb compression "gzip"),
           (String.eqb compression "bzip2"),
           (String.eqb compression "raw"); cbn;
    repeat split; intros Hx; (reflexivity || discriminate Hx).
Qed.

(** X12: each encoder accepts exactly the names of its dialect's list of
    compressors: for a listed name it returns options, for every other name
    it raises the compression-not-supported error carrying that name. *)
Theorem encoders_accept_exactly_listed_names (compression : string)
    (compression_options : pydict) :
  (is_ok (_to_zarr_compression_options compression compression_options)
   = str_in compression compressors_zarr)
  /\ (_to_zarr_compression_options compression compression_options
      = Raise (CompressionNotSupported true compression)
      <-> str_in compression compressors_zarr = false)
  /\ (is_ok (_to_n5_compression_options compression compression_options)
      = str_in compression compressors_n5)
  /\ (_to_n5_compression_options compression compression_options
      = Raise (CompressionNotSupported false compression)
      <-> str_in compression compressors_n5 = false).
Proof. apply encoders_and_lists_agree. Qed.

Section helper_facts.
Context {fs : Type} `{OS fs}.

(** X13: the creation helpers make the directory before they look up the
    dtype and encode the compression.  Called with a dtype outside the table
    or with a compression the encoder rejects, they raise after the
    directory has been made and before the sidecar file is written: the
    state returned is the one [os.mkdir] left. *)
Theorem creation_helpers_raise_after_mkdir (path : string) (dt : np_dtype)
    (shape chunks : list Z) (compression : string)
    (compression_options : pydict) (fill_value : pyval) (st st1 : fs) :
  os_mkdir path st = (Ok tt, st1) ->
  (dtype_lookup dt zarr_dtype_dict = None ->
   _create_dataset_zarr path dt shape chunks compression compression_options
     fill_value st = (Raise (MissingDtype dt), st1))
  /\ (is_Some (dtype_lookup dt zarr_dtype_dict) ->
      str_in compression compressors_zarr = false ->
      _create_dataset_zarr path dt shape chunks compression compression_options
        fill_value st = (Raise (CompressionNotSupported true compression), st1))
  /\ (dtype_lookup dt dtype_dict = None ->
      _create_dataset_n5 path dt shape chunks compression compression_options st
      = (Raise (MissingDtype dt), st1))
  /\ (is_Some (dtype_lookup dt dtype_dict) ->
      str_in compression compressors_n5 = false ->
      _create_dataset_n5 path dt shape chunks compression compression_options st
      = (Raise (CompressionNotSupported false compression), st1)).
Proof.
  intros Hmk.
  pose proof (encoders_and_lists_agree compression compression_options)
    as (_ & Hzarr & _ & Hn5).
  unfold _create_dataset_zarr, _create_dataset_n5, dtype_name, lift,
    mbind, M_bind.
  rewrite Hmk. repeat split.
  - intros ->. reflexivity.
  - intros [name ->] Hin. apply Hzarr in Hin. now rewrite Hin.
  - intros ->. reflexivity.
  - intros [name ->] Hin. apply Hn5 in Hin. now rewrite Hin.
Qed.
End helper_facts.

Lemma creation_helpers_raise_after_mkdir_witness :
  let made : gmap string node := <["ds" := Dir]> ∅ in
  _create_dataset_zarr (fs := gmap string node) "ds" float32 [10; 20] [5; 5]
    "lz4raw" [] PNone ∅
  = (Raise (CompressionNotSupported true "lz4raw"), made)
  /\ made !! "ds/.zarray" = None.
Proof.
  split.
  - apply (creation_helpers_raise_after_mkdir (fs := gmap string node)
             "ds" float32 [10; 20] [5; 5] "lz4raw" [] PNone ∅
             (<["ds" := Dir]> ∅)).
    + vm_compute; reflexivity.
    + eexists. vm_compute; reflexivity.
    + vm_compute; reflexivity.
  - vm_compute; reflexivity.
Defined.

Section reader_facts.
Context {fs : Type} `{OS fs}.

(** X14: for raw and gzip the N5 options are read back as encoded: when
    the sidecar file of an N5 dataset holds the document creation writes
    with the encoder's output for raw or gzip, [compression_options] returns
    that algorithm and, for gzip, the level that was encoded (the requested
    one, or 5 when none was given). *)
Theorem n5_raw_gzip_round_trip (self : Dataset) (st : fs)
    (dtype_s : pyval) (shape chunks : list Z) (compression : string)
    (options : pydict) (compressor : pyval) :
  is_zarr self = false ->
  compression = "raw" \/ compression = "gzip" ->
  _to_n5_compression_options compression options = Ok compressor ->
  json_load_from (os_path_join (path self) "attributes.json") st
  = Ok (PDict (n5_params dtype_s shape chunks compressor)) ->
  compression_options self st
  = Ok (if String.eqb compression "raw"
        then [("compression", PStr "raw")]
        else [("compression", PStr "gzip");
              ("level", dict_get options "level" (PInt 5))]).
Proof.
  intros Hn5 Halg Henc Hload.
  unfold compression_options, _read_n5_compression_options.
  rewrite Hn5, Hload.
  destruct Halg as [-> | ->]; cbn in Henc; inversion Henc; subst; reflexivity.
Qed.
End reader_facts.

Lemma n5_raw_gzip_round_trip_witness :
  let created :=
    create_dataset (fs := gmap string node) "ds" float32 [10; 20] [5; 5]
      false "gzip" [("level", PInt 9)] PNone "a" ∅ in
  compression_options (MkDataset "ds" (DsetImpl [10; 20] float32 false)) created.2
  = Ok [("compression", PStr "gzip"); ("level", PInt 9)].
Proof.
  apply (n5_raw_gzip_round_trip (fs := gmap string node)
           (MkDataset "ds" (DsetImpl [10; 20] float32 false)) _
           (PStr "float32") [10; 20] [5; 5] "gzip" [("level", PInt 9)]
           (PDict [("type", PStr "gzip"); ("level", PInt 9)])).
  - reflexivity.
  - right. reflexivity.
  - reflexivity.
  - vm_compute; reflexivity.
Defined.

(** X15: what the decoders do with a document they do not know.  The Zarr
    decoder returns the empty dictionary, without an error, for every
    compressor id that is a string other than blosc, zlib and bzip2.  The N5
    decoder raises a [TypeError] for every compression type that is a string
    other than raw and gzip, in the legacy and in the current schema, and a
    [KeyError] for a document with neither ['compressionType'] nor
    ['compression']. *)
Theorem decoders_on_unknown_documents (d : pydict) :
  (forall s : string,
      String.eqb s "blosc" = false -> String.eqb s "zlib" = false ->
      String.eqb s "bzip2" = false ->
      dict_lookup "id" d = Some (PStr s) ->
      zarr_compression_options_of (PDict d) = Ok [])
  /\ (forall s : string,
        String.eqb s "raw" = false -> String.eqb s "gzip" = false ->
        dict_lookup "compressionType" d = Some (PStr s) ->
        n5_compression_options_of (PDict d) = Raise NotSubscriptable)
  /\ (forall (s : string) (c : pydict),
        String.eqb s "raw" = false -> String.eqb s "gzip" = false ->
        dict_lookup "compressionType" d = None ->
        dict_lookup "compression" d = Some (PDict c) ->
        dict_lookup "type" c = Some (PStr s) ->
        n5_compression_options_of (PDict d) = Raise NotSubscriptable)
  /\ (dict_lookup "compressionType" d = None ->
      dict_lookup "compression" d = None ->
      n5_compression_options_of (PDict d) = Raise (MissingKey "compression")).
Proof.
  split; [|split; [|split]].
  - intros s Hblosc Hzlib Hbzip2 Hid. unfold zarr_compression_options_of. simpl.
    rewrite Hid. simpl. rewrite Hblosc, Hzlib, Hbzip2. reflexivity.
  - intros s Hraw Hgzip Hct. unfold n5_compression_options_of. simpl.
    rewrite Hct. simpl. rewrite Hraw, Hgzip. reflexivity.
  - intros s c Hraw Hgzip Hct Hc Hty. unfold n5_compression_options_of. simpl.
    rewrite Hct, Hc. simpl. rewrite Hty. simpl. rewrite Hraw, Hgzip. reflexivity.
  - intros Hct Hc. unfold n5_compression_options_of. simpl.
    rewrite Hct, Hc. reflexivity.
Qed.

Lemma decoders_on_unknown_documents_witness :
  zarr_compression_options_of (PDict [("id", PStr "gzip")]) = Ok []
  /\ n5_compression_options_of (PDict [("compressionType", PStr "zlib")])
     = Raise NotSubscriptable
  /\ n5_compression_options_of
       (PDict [("compression", PDict [("type", PStr "blosc")])])
     = Raise NotSubscriptable
  /\ n5_compression_options_of (PDict [("dataType", PStr "uint8")])
     = Raise (MissingKey "compression").
Proof.
  split; [|split; [|split]].
  - exact (proj1 (decoders_on_unknown_documents [("id", PStr "gzip")])
             "gzip" eq_refl eq_refl eq_refl eq_refl).
  - exact (proj1 (proj2 (decoders_on_unknown_documents
                           [("compressionType", PStr "zlib")]))
             "zlib" eq_refl eq_refl eq_refl).
  - exact (proj1 (proj2 (proj2 (decoders_on_unknown_documents
                                  [("compression", PDict [("type", PStr "blosc")])])))
             "blosc" [("type", PStr "blosc")] eq_refl eq_refl eq_refl eq_refl eq_refl).
  - exact (proj2 (proj2 (proj2 (decoders_on_unknown_documents
                                  [("dataType", PStr "uint8")])))
             eq_refl eq_refl).
Defined.
